(** * padocc_cli: the group deployment script [group_run.py]

    A shallow embedding of [deploy_array_job] and [main] of
    [src/group_run.py].  The Python code talks to the file system, the
    shell, the terminal and the [padocc] package; those calls are modelled
    as operations of a state-and-exception monad over an explicit [world],
    and every call that leaves the process is recorded in a trace. *)

From Stdlib Require Import ZArith List String Ascii DecimalString.
From stdpp Require Import base gmap strings list.

Local Open Scope string_scope.
Local Open Scope Z_scope.
Local Open Scope list_scope.

(** ** Python values and string primitives *)

Module Py.

(** Exceptions that the modelled calls can raise.  [NotModelled] marks a
    use of [str.format] outside the subset of replacement fields that
    [format] below interprets; [External] is an exception raised inside
    the [padocc] package. *)
Inductive exn :=
  | TypeError | KeyError | ValueError | IndexError
  | FileNotFoundError | FileExistsError | PermissionError
  | EOFError | KeyboardInterrupt
  | NotModelled | External.

#[global] Instance exn_eq_dec : EqDecision exn.
Proof. solve_decision. Defined.

Inductive outcome (A : Type) :=
  | Ret (a : A)
  | Raise (e : exn).
Arguments Ret {A} a.
Arguments Raise {A} e.

(** The objects a caller can hand to [verbose]: the annotation is [int]
    and the command line passes a count, but nothing enforces it and the
    body calls [len(verbose)], which of these only a string answers. *)
Inductive value :=
  | PyNone
  | PyBool (b : bool)
  | PyInt (n : Z)
  | PyStr (s : string).

(** [len(x)]: defined on strings, [TypeError] on [None], [bool], [int]. *)
Definition len (x : value) : outcome nat :=
  match x with
  | PyStr s => Ret (String.length s)
  | PyNone | PyBool _ | PyInt _ => Raise TypeError
  end.

(** Truth value of an optional string ([None] and [''] are false). *)
Definition truthy_str (o : option string) : bool :=
  match o with
  | Some s => negb (String.eqb s "")
  | None => false
  end.

(** Truth value of an optional boolean ([None] and [False] are false). *)
Definition truthy_bool (o : option bool) : bool :=
  match o with
  | Some b => b
  | None => false
  end.

(** [x is not None]. *)
Definition is_not_None {A} (o : option A) : bool :=
  match o with
  | Some _ => true
  | None => false
  end.

(** [a or b] on a string [a] and an optional string [b]: [a] when [a] is
    true, else [b]. *)
Definition str_or (a : string) (b : option string) : option string :=
  if truthy_str (Some a) then Some a else b.

(** [a or b] on an optional string [a] and a string [b]. *)
Definition opt_or (a : option string) (b : string) : string :=
  match a with
  | Some s => if truthy_str a then s else b
  | None => b
  end.

(** [str(n)] for an integer. *)
Definition str_int (n : Z) : string :=
  NilZero.string_of_int (Z.to_int n).

(** [s * n] for a one-character string. *)
Fixpoint repeat_char (c : ascii) (n : nat) : string :=
  match n with
  | O => ""
  | S k => String c (repeat_char c k)
  end.

(** [s.replace(a, b)] for one-character [a] and [b]. *)
Fixpoint replace_char (a b : ascii) (s : string) : string :=
  match s with
  | EmptyString => ""
  | String c r =>
      String (if Ascii.eqb c a then b else c) (replace_char a b r)
  end.

(** Characters removed by [str.strip()]: codes 9-13, 28-31 and 32. *)
Definition is_space (c : ascii) : bool :=
  let n := nat_of_ascii c in
  ((9 <=? n)%nat && (n <=? 13)%nat)
  || ((28 <=? n)%nat && (n <=? 32)%nat).

Fixpoint lstrip (s : string) : string :=
  match s with
  | EmptyString => ""
  | String c r => if is_space c then lstrip r else s
  end.

Fixpoint rstrip (s : string) : string :=
  match s with
  | EmptyString => ""
  | String c r =>
      match rstrip r with
      | EmptyString => if is_space c then "" else String c ""
      | r' => String c r'
      end
  end.

Definition strip (s : string) : string := rstrip (lstrip s).

(** Universal newlines of a text-mode [open]: CR LF and a lone CR are read
    as LF. *)
Fixpoint universal_newlines (s : string) : string :=
  match s with
  | EmptyString => ""
  | String c r =>
      if Ascii.eqb c "013" then
        match r with
        | String d r' =>
            if Ascii.eqb d "010" then String "010" (universal_newlines r')
            else String "010" (universal_newlines r)
        | EmptyString => String "010" ""
        end
      else String c (universal_newlines r)
  end.

(** [f.readlines()]: the lines of the text, each with its terminating
    newline; a last line without one is kept as it is. *)
Fixpoint readlines_go (cur : string) (s : string) : list string :=
  match s with
  | EmptyString =>
      match cur with
      | EmptyString => []
      | _ => [cur]
      end
  | String c r =>
      if Ascii.eqb c "010" then (cur +:+ String c "") :: readlines_go "" r
      else readlines_go (cur +:+ String c "") r
  end.

Definition readlines (text : string) : list string :=
  readlines_go "" (universal_newlines text).

(** [sep.join(parts)]. *)
Fixpoint join (sep : string) (parts : list string) : string :=
  match parts with
  | [] => ""
  | [p] => p
  | p :: ps => p +:+ sep +:+ join sep ps
  end.

(** *** [str.format] with positional arguments

    The interpreted subset: literal text, the escapes [{{] and [}}],
    automatically numbered fields [{}] and explicitly numbered fields
    [{3}].  A field that names a keyword raises [KeyError] (no keyword
    arguments are passed); switching between the two numberings and a
    stray brace raise [ValueError]; an index past the arguments raises
    [IndexError].  Conversions, format specifications, attribute and item
    access inside a field are answered with [NotModelled]. *)

Inductive numbering :=
  | NumFresh
  | NumAuto (next : nat)
  | NumManual.

Inductive fstate :=
  | FText
  | FOpen
  | FField (name : string)
  | FClose.

Definition is_digit (c : ascii) : bool :=
  let n := nat_of_ascii c in (48 <=? n)%nat && (n <=? 57)%nat.

Fixpoint all_digits (s : string) : bool :=
  match s with
  | EmptyString => true
  | String c r => is_digit c && all_digits r
  end.

Fixpoint nat_of_digits (acc : nat) (s : string) : nat :=
  match s with
  | EmptyString => acc
  | String c r => nat_of_digits (10 * acc + (nat_of_ascii c - 48))%nat r
  end.

Fixpoint has_char (p : ascii -> bool) (s : string) : bool :=
  match s with
  | EmptyString => false
  | String c r => p c || has_char p r
  end.

Definition is_field_syntax (c : ascii) : bool :=
  Ascii.eqb c "!" || Ascii.eqb c ":" || Ascii.eqb c "." || Ascii.eqb c "[".

Definition positional (args : list string) (i : nat) : outcome string :=
  match nth_error args i with
  | Some v => Ret v
  | None => Raise IndexError
  end.

Definition lookup_field (args : list string) (num : numbering)
    (name : string) : outcome (string * numbering) :=
  match name with
  | EmptyString =>
      match num with
      | NumManual => Raise ValueError
      | NumFresh =>
          match positional args 0 with
          | Ret v => Ret (v, NumAuto 1)
          | Raise e => Raise e
          end
      | NumAuto n =>
          match positional args n with
          | Ret v => Ret (v, NumAuto (S n))
          | Raise e => Raise e
          end
      end
  | _ =>
      if all_digits name then
        match num with
        | NumAuto _ => Raise ValueError
        | _ =>
            match positional args (nat_of_digits 0 name) with
            | Ret v => Ret (v, NumManual)
            | Raise e => Raise e
            end
        end
      else if has_char is_field_syntax name then Raise NotModelled
      else Raise KeyError
  end.

Definition prepend (pre : string) (o : outcome string) : outcome string :=
  match o with
  | Ret s => Ret (pre +:+ s)
  | Raise e => Raise e
  end.

Fixpoint format_go (args : list string) (num : numbering) (st : fstate)
    (s : string) : outcome string :=
  match s with
  | EmptyString =>
      match st with
      | FText => Ret ""
      | _ => Raise ValueError
      end
  | String c r =>
      match st with
      | FText =>
          if Ascii.eqb c "{" then format_go args num FOpen r
          else if Ascii.eqb c "}" then format_go args num FClose r
          else prepend (String c "") (format_go args num FText r)
      | FOpen =>
          if Ascii.eqb c "{" then prepend "{" (format_go args num FText r)
          else if Ascii.eqb c "}" then
            match lookup_field args num "" with
            | Ret (v, num') => prepend v (format_go args num' FText r)
            | Raise e => Raise e
            end
          else format_go args num (FField (String c "")) r
      | FField name =>
          if Ascii.eqb c "}" then
            match lookup_field args num name with
            | Ret (v, num') => prepend v (format_go args num' FText r)
            | Raise e => Raise e
            end
          else if Ascii.eqb c "{" then Raise NotModelled
          else format_go args num (FField (name +:+ String c "")) r
      | FClose =>
          if Ascii.eqb c "}" then prepend "}" (format_go args num FText r)
          else Raise ValueError
      end
  end.

(** [template.format(a0, a1, ...)] on positional arguments. *)
Definition format (template : string) (args : list string) : outcome string :=
  format_go args NumFresh FText template.

End Py.

(** ** The world outside the process *)

Module OS.
Import Py.

(** Every call that leaves the process, in the order it is made. *)
Inductive event :=
  | EvOpenRead (path : string)              (* open(path) *)
  | EvIsdir (path : string)                 (* os.path.isdir(path) *)
  | EvSystem (cmd : string)                 (* os.system(cmd) *)
  | EvMakedirs (path : string)              (* os.makedirs(path) *)
  | EvOpenWrite (path : string)             (* open(path, 'w') *)
  | EvWrite (path content : string)         (* f.write(content) *)
  | EvPrint (line : string)                 (* print(line) *)
  | EvInput (prompt : string)               (* input(prompt) *)
  | EvLogInfo (msg : string)                (* logger.info(msg) *)
  | EvLogError (msg : string)               (* logger.error(msg) *)
  | EvGetAttribute (name : string)          (* padocc get_attribute *)
  | EvConfiguration (groupID : string)      (* padocc Configuration(...) *)
  | EvConfInfo (source venv : string)       (* conf.info({...}) *)
  | EvInitConfig (input_file : option string)   (* conf.init_config *)
  | EvCreateAllocations (phase repeat_id : string)  (* conf.create_allocations *)
  | EvProjCodes (repeat_id : string).       (* conf.proj_codes[repeat_id].get() *)

#[global] Instance event_eq_dec : EqDecision event.
Proof. solve_decision. Defined.

(** The file system as far as the script touches it: the text files by
    path, the directories that exist, the paths the process may not
    modify; the lines waiting on standard input; the trace. *)
Record world := World {
  w_files : gmap string string;
  w_dirs : gset string;
  w_denied : gset string;
  w_stdin : list string;
  w_trace : list event
}.

(** Computations: a world in, an outcome and a world out.  An exception
    keeps the effects made before it was raised. *)
Definition M (A : Type) : Type := world -> outcome A * world.

Definition ret {A} (a : A) : M A := fun w => (Ret a, w).

Definition raise {A} (e : exn) : M A := fun w => (Raise e, w).

Definition bind {A B} (c : M A) (k : A -> M B) : M B :=
  fun w =>
    match c w with
    | (Ret a, w') => k a w'
    | (Raise e, w') => (Raise e, w')
    end.

Definition lift {A} (o : outcome A) : M A := fun w => (o, w).

Definition emit (ev : event) : M unit :=
  fun w =>
    (Ret tt,
     World (w_files w) (w_dirs w) (w_denied w) (w_stdin w) (w_trace w ++ [ev])).

Definition when (b : bool) (c : M unit) : M unit :=
  if b then c else ret tt.

Declare Scope py_scope.
Delimit Scope py_scope with py.
Notation "x <~ c ;;; k" := (bind c (fun x => k))
  (at level 20, c at level 99, k at level 200, only parsing) : py_scope.
Notation "c ;;; k" := (bind c (fun _ => k))
  (at level 100, k at level 200, right associativity, only parsing) : py_scope.
Local Open Scope py_scope.

Definition with_fs (files : gmap string string) (dirs : gset string)
    (w : world) : world :=
  World files dirs (w_denied w) (w_stdin w) (w_trace w).

(** A path without its trailing slashes, the form under which directories
    are recorded. *)
Fixpoint normpath (p : string) : string :=
  match p with
  | EmptyString => ""
  | String c r =>
      match normpath r with
      | EmptyString => if Ascii.eqb c "/" then "" else String c ""
      | r' => String c r'
      end
  end.

(** [open(path)] followed by reading the whole text. *)
Definition open_read (path : string) : M string :=
  emit (EvOpenRead path) ;;;
  fun w =>
    match w_files w !! path with
    | Some text => (Ret text, w)
    | None => (Raise FileNotFoundError, w)
    end.

(** [os.path.isdir(path)]. *)
Definition isdir (path : string) : M bool :=
  emit (EvIsdir path) ;;;
  fun w => (Ret (bool_decide (normpath path ∈ w_dirs w)), w).

(** The directory named by a command [rm -rf <path>]. *)
Fixpoint strip_prefix (pre s : string) : option string :=
  match pre with
  | EmptyString => Some s
  | String c pre' =>
      match s with
      | String d s' => if Ascii.eqb c d then strip_prefix pre' s' else None
      | EmptyString => None
      end
  end.

(** [os.system(cmd)]; the exit status is returned to a caller that drops
    it.  A command [rm -rf <path>] removes the directory unless the
    process may not modify it (the path is taken to hold no character that
    the shell treats specially); every other command, the [sbatch]
    submission among them, leaves the modelled file system as it is. *)
Definition system (cmd : string) : M unit :=
  emit (EvSystem cmd) ;;;
  fun w =>
    match strip_prefix "rm -rf " cmd with
    | Some path =>
        if bool_decide (normpath path ∈ w_denied w) then (Ret tt, w)
        else (Ret tt, with_fs (w_files w) (w_dirs w ∖ {[normpath path]}) w)
    | None => (Ret tt, w)
    end.

(** [os.makedirs(path)] without [exist_ok]. *)
Definition makedirs (path : string) : M unit :=
  emit (EvMakedirs path) ;;;
  fun w =>
    if bool_decide (normpath path ∈ w_dirs w) then (Raise FileExistsError, w)
    else if bool_decide (normpath path ∈ w_denied w)
    then (Raise PermissionError, w)
    else (Ret tt, with_fs (w_files w) ({[normpath path]} ∪ w_dirs w) w).

(** [open(path, 'w')]: the file is created or truncated. *)
Definition open_write (path : string) : M unit :=
  emit (EvOpenWrite path) ;;;
  fun w =>
    if bool_decide (path ∈ w_denied w) then (Raise PermissionError, w)
    else (Ret tt, with_fs (<[path := ""]> (w_files w)) (w_dirs w) w).

(** [f.write(content)] on the file just opened for writing. *)
Definition write (path content : string) : M unit :=
  emit (EvWrite path content) ;;;
  fun w => (Ret tt, with_fs (<[path := content]> (w_files w)) (w_dirs w) w).

Definition print (line : string) : M unit := emit (EvPrint line).

(** [input(prompt)]: the next line of standard input. *)
Definition input (prompt : string) : M string :=
  emit (EvInput prompt) ;;;
  fun w =>
    match w_stdin w with
    | line :: rest =>
        (Ret line,
         World (w_files w) (w_dirs w) (w_denied w) rest (w_trace w))
    | [] => (Raise EOFError, w)
    end.

Definition log_info (msg : string) : M unit := emit (EvLogInfo msg).
Definition log_error (msg : string) : M unit := emit (EvLogError msg).

(** [for x in xs: body(x)]. *)
Fixpoint for_each {A} (xs : list A) (body : A -> M unit) : M unit :=
  match xs with
  | [] => ret tt
  | x :: rest => body x ;;; for_each rest body
  end.

End OS.

(** ** The [padocc] package, as [group_run.py] uses it

    The package is not part of this repository: its constants and the
    behaviour of its calls are parameters of the development. *)

Module Padocc.
Import Py.

(** An allocation descriptor [(time, label, count)] of the planner. *)
Definition allocation : Type := string * string * Z.

(** A [Configuration] object: its group directory [conf.dir], the project
    codes per repeat id, the planner and the [init] phase. *)
Record config := Config {
  conf_dir : string;
  conf_proj_codes : gmap string (list string);
  conf_create_allocations :
    string -> string -> option bool -> option bool -> outcome (list allocation);
  conf_init_config : option string -> outcome unit
}.

Record package := Package {
  KNOWN_PHASES : list string;
  KNOWN_PHASES_str : string;              (* the text of str(KNOWN_PHASES) *)
  times : gmap string string;             (* default time per phase *)
  get_attribute : string -> option string -> outcome string;
  Configuration : string -> string -> outcome config
}.

End Padocc.

(** ** [group_run.py] *)

Module GroupRun.
Import Py OS Padocc.
Local Open Scope py_scope.

(** The parameters of [deploy_array_job], under the names of the source
    with the prefix [j_] (the [logger] is the trace). *)
Record job := Job {
  j_phase : string;
  j_groupID : string;
  j_workdir : string;
  j_groupdir : string;
  j_source : string;
  j_venvpath : string;
  j_group_len : Z;
  j_forceful : option bool;
  j_dryrun : option bool;
  j_quality : option bool;
  j_verbose : value;
  j_binpack : option bool;
  j_time_allowed : option string;
  j_memory : option string;
  j_subset : option Z;
  j_repeat_id : string;
  j_bypass : string;
  j_mode : option string;
  j_new_version : option string;
  j_time : option string;
  j_joblabel : option string
}.

Definition template : string := "extensions/templates/phase.sbatch.template".

(** [str(x)] of an optional string inside a format slot. *)
Definition str_opt (o : option string) : string :=
  match o with
  | Some s => s
  | None => "None"
  end.

(** Lines 54-58: the script path. *)
Definition group_phase_sbatch (a : job) : string :=
  if negb (truthy_str (j_joblabel a))
  then j_groupdir a +:+ "/sbatch/" +:+ j_phase a +:+ ".sbatch"
  else j_groupdir a +:+ "/sbatch/" +:+ j_phase a +:+ "_"
       +:+ str_opt (j_joblabel a) +:+ ".sbatch".

(** Lines 54-58: the repeat id, rebound when a label is given. *)
Definition repeat_id (a : job) : string :=
  if negb (truthy_str (j_joblabel a)) then j_repeat_id a
  else j_repeat_id a +:+ "/" +:+ str_opt (j_joblabel a).

(** Line 60. *)
Definition master_script (a : job) : string :=
  j_source a +:+ "/single_run.py".

(** Lines 68-69: [time_allowed or times[phase]] unless [time] is given. *)
Definition resolve_time (P : package) (a : job) : outcome string :=
  match j_time a with
  | Some t => Ret t
  | None =>
      if truthy_str (j_time_allowed a) then Ret (str_opt (j_time_allowed a))
      else
        match times P !! j_phase a with
        | Some t => Ret t
        | None => Raise KeyError
        end
  end.

(** Line 70: [mem = '2G' or memory]. *)
Definition mem (a : job) : option string := str_or "2G" (j_memory a).

(** Lines 72-74. *)
Definition jobname (a : job) : string :=
  if truthy_str (j_joblabel a)
  then str_opt (j_joblabel a) +:+ "_" +:+ j_phase a +:+ "_" +:+ j_groupID a
  else j_groupID a +:+ "_" +:+ j_phase a.

(** Lines 77-78. *)
Definition outdir : string := "/dev/null".

Definition errdir (a : job) : string :=
  j_groupdir a +:+ "/errs/" +:+ j_phase a +:+ "_"
  +:+ replace_char "/" "_" (repeat_id a) +:+ "/".

(** Lines 86-95: the fourteen positional arguments of [sbatch.format]. *)
Definition slots (a : job) (time : string) : list string :=
  [ jobname a; time; str_opt (mem a);
    outdir; errdir a +:+ "%A_%a.log";
    j_venvpath a; j_workdir a; j_groupdir a;
    master_script a; j_phase a; j_groupID a; time; str_opt (mem a);
    repeat_id a ].

(** Lines 124 and 126: the submission command. *)
Definition sbatch_command (a : job) : string :=
  "sbatch --array=0-" +:+ str_int (j_group_len a - 1) +:+ " "
  +:+ group_phase_sbatch a.

Definition append_if (b : bool) (sb extra : string) : string :=
  if b then sb +:+ extra else sb.

Definition deploy_array_job (P : package) (a : job) : M unit :=
  (* lines 64-65 *)
  text <~ open_read template ;;;
  let sbatch := join (String "010" "") (map strip (readlines text)) in
  (* lines 68-70 *)
  time <~ lift (resolve_time P a) ;;;
  (* lines 80-82 *)
  exists_ <~ isdir (errdir a) ;;;
  when exists_ (system ("rm -rf " +:+ errdir a)) ;;;
  makedirs (errdir a) ;;;
  (* lines 86-95 *)
  sb <~ lift (format sbatch (slots a time)) ;;;
  (* lines 98-116 *)
  let sb := sb +:+ " -b " +:+ j_bypass a in
  let sb := append_if (is_not_None (j_forceful a)) sb " -f" in
  n <~ lift (len (j_verbose a)) ;;;
  let verb := repeat_char "v" n in
  let sb := append_if (negb (String.eqb verb "")) sb (" -" +:+ verb) in
  let sb := append_if (is_not_None (j_quality a)) sb " -Q" in
  let sb := append_if (is_not_None (j_dryrun a)) sb " -d" in
  let sb := append_if (is_not_None (j_binpack a)) sb " -A" in
  let sb := append_if (is_not_None (j_subset a)) sb
              (" -s " +:+ str_int (default 0 (j_subset a))) in
  let sb := append_if (is_not_None (j_new_version a)) sb
              (" -n " +:+ str_opt (j_new_version a)) in
  let sb := append_if (is_not_None (j_mode a)) sb
              (" -m " +:+ str_opt (j_mode a)) in
  (* lines 118-119 *)
  open_write (group_phase_sbatch a) ;;;
  write (group_phase_sbatch a) sb ;;;
  (* lines 122-126 *)
  if truthy_bool (j_dryrun a) then
    log_info "DRYRUN: sbatch command: " ;;;
    print (sbatch_command a)
  else
    system (sbatch_command a).

(** The parameters of [main], under the names of the source with the
    prefix [m_].  The command line hands [bypass] over as a string. *)
Record main_args := MainArgs {
  m_phase : string;
  m_groupID : string;
  m_workdir : option string;
  m_source : option string;
  m_venvpath : option string;
  m_input_file : option string;
  m_band_increase : option bool;
  m_forceful : option bool;
  m_dryrun : option bool;
  m_quality : option bool;
  m_verbose : value;
  m_binpack : option bool;
  m_time_allowed : option string;
  m_memory : option string;
  m_subset : option Z;
  m_repeat_id : string;
  m_bypass : string;
  m_mode : option string;
  m_new_version : option string
}.

(** The call [deploy_array_job(phase, groupID, workdir, conf.dir, source,
    venvpath, n, conf.logger, **array_job_kwargs)] of lines 218-222 and
    232-236: [time] and [joblabel] keep their default [None]. *)
Definition array_job (m : main_args) (workdir dir source venvpath : string)
    (n : Z) : job :=
  {| j_phase := m_phase m; j_groupID := m_groupID m;
     j_workdir := workdir; j_groupdir := dir;
     j_source := source; j_venvpath := venvpath;
     j_group_len := n;
     j_forceful := m_forceful m; j_dryrun := m_dryrun m;
     j_quality := m_quality m; j_verbose := m_verbose m;
     j_binpack := m_binpack m; j_time_allowed := m_time_allowed m;
     j_memory := m_memory m; j_subset := m_subset m;
     j_repeat_id := m_repeat_id m; j_bypass := m_bypass m;
     j_mode := m_mode m; j_new_version := m_new_version m;
     j_time := None; j_joblabel := None |}.

Definition dquote : string := String "034" "".

Definition prompt : string :=
  "Deploy the above allocated dataset jobs with these timings? (Y/N) ".

(** Line 211. *)
Definition summary (alloc : allocation) : string :=
  let '(t, label, n) := alloc in
  t +:+ ": (" +:+ label +:+ ") - " +:+ str_int n +:+ " Jobs".

Definition call_get_attribute (P : package) (name : string)
    (v : option string) : M string :=
  emit (EvGetAttribute name) ;;; lift (get_attribute P name v).

Definition main (P : package) (m : main_args) : M unit :=
  (* lines 161-169 *)
  workdir <~ call_get_attribute P "WORKDIR" (m_workdir m) ;;;
  source <~ call_get_attribute P "SRCDIR" (m_source m) ;;;
  venvpath <~ call_get_attribute P "KVENV" (m_venvpath m) ;;;
  emit (EvConfiguration (m_groupID m)) ;;;
  conf <~ lift (Configuration P (m_groupID m) workdir) ;;;
  (* lines 171-175 *)
  if negb (bool_decide (m_phase m ∈ KNOWN_PHASES P)) then
    log_error (dquote +:+ m_phase m +:+ dquote
               +:+ " not recognised, please select from "
               +:+ KNOWN_PHASES_str P)
  else
    (* lines 177-180 *)
    emit (EvConfInfo source venvpath) ;;;
    (* lines 183-186 *)
    if String.eqb (m_phase m) "init" then
      log_info ("Running init steps as a serial process for " +:+ m_groupID m) ;;;
      emit (EvInitConfig (m_input_file m)) ;;;
      lift (conf_init_config conf (m_input_file m))
    else if negb (truthy_str (m_time_allowed m)) then
      (* lines 205-222 *)
      emit (EvCreateAllocations (m_phase m) (m_repeat_id m)) ;;;
      allocations <~ lift (conf_create_allocations conf (m_phase m)
                             (m_repeat_id m) (m_band_increase m)
                             (m_binpack m)) ;;;
      for_each allocations (fun alloc => print (summary alloc)) ;;;
      deploy <~ input prompt ;;;
      if negb (String.eqb deploy "Y") then raise KeyboardInterrupt
      else
        for_each allocations (fun alloc =>
          deploy_array_job P
            (array_job m workdir (conf_dir conf) source venvpath alloc.2))
    else
      (* lines 224-236 *)
      emit (EvProjCodes (m_repeat_id m)) ;;;
      codes <~ lift (match conf_proj_codes conf !! m_repeat_id m with
                     | Some cs => Ret cs
                     | None => Raise KeyError
                     end) ;;;
      let num_datasets := Z.of_nat (length codes) in
      log_info ("All Datasets: " +:+ str_opt (m_time_allowed m) +:+ " ("
                +:+ str_int num_datasets +:+ ")") ;;;
      deploy <~ input prompt ;;;
      if negb (String.eqb deploy "Y") then raise KeyboardInterrupt
      else
        deploy_array_job P
          (array_job m workdir (conf_dir conf) source venvpath num_datasets).

End GroupRun.

(** ** What a run leaves in the trace *)

Module Run.
Import Py OS Padocc GroupRun.

(** The text that lines 98-116 build from the filled template [sb] when
    [len(verbose)] is [n]. *)
Definition carry_through (a : job) (sb : string) (n : nat) : string :=
  let sb := sb +:+ " -b " +:+ j_bypass a in
  let sb := append_if (is_not_None (j_forceful a)) sb " -f" in
  let verb := repeat_char "v" n in
  let sb := append_if (negb (String.eqb verb "")) sb (" -" +:+ verb) in
  let sb := append_if (is_not_None (j_quality a)) sb " -Q" in
  let sb := append_if (is_not_None (j_dryrun a)) sb " -d" in
  let sb := append_if (is_not_None (j_binpack a)) sb " -A" in
  let sb := append_if (is_not_None (j_subset a)) sb
              (" -s " +:+ str_int (default 0 (j_subset a))) in
  let sb := append_if (is_not_None (j_new_version a)) sb
              (" -n " +:+ str_opt (j_new_version a)) in
  append_if (is_not_None (j_mode a)) sb (" -m " +:+ str_opt (j_mode a)).

(** The template as line 65 reads it. *)
Definition read_template (text : string) : string :=
  join (String "010" "") (map strip (readlines text)).

(** The calls of lines 80-82 in a world [w]. *)
Definition log_reset_events (a : job) (w : world) : list event :=
  EvIsdir (errdir a)
  :: (if bool_decide (normpath (errdir a) ∈ w_dirs w)
      then [EvSystem ("rm -rf " +:+ errdir a)] else [])
  ++ [EvMakedirs (errdir a)].

(** The calls of lines 122-126. *)
Definition submit_events (a : job) : list event :=
  if truthy_bool (j_dryrun a)
  then [EvLogInfo "DRYRUN: sbatch command: "; EvPrint (sbatch_command a)]
  else [EvSystem (sbatch_command a)].

(** The directories after lines 80-82 have succeeded. *)
Definition log_reset_dirs (a : job) (w : world) : gset string :=
  if bool_decide (normpath (errdir a) ∈ w_dirs w)
  then {[normpath (errdir a)]} ∪ (w_dirs w ∖ {[normpath (errdir a)]})
  else {[normpath (errdir a)]} ∪ w_dirs w.

(** The world after further calls have been recorded. *)
Definition log (evs : list event) (w : world) : world :=
  World (w_files w) (w_dirs w) (w_denied w) (w_stdin w) (w_trace w ++ evs).

(** Events that belong to no deployment: they neither open the template,
    touch a directory, write a script nor run a command. *)
Definition quiet (ev : event) : bool :=
  match ev with
  | EvOpenRead _ | EvIsdir _ | EvSystem _ | EvMakedirs _
  | EvOpenWrite _ | EvWrite _ _ => false
  | _ => true
  end.

(** The calls of [main] before it branches on [time_allowed]. *)
Definition preamble_events (m : main_args) (source venvpath : string)
    : list event :=
  [ EvGetAttribute "WORKDIR"; EvGetAttribute "SRCDIR"; EvGetAttribute "KVENV";
    EvConfiguration (m_groupID m); EvConfInfo source venvpath ].

(** The exception of line 82 when the log directory cannot be made. *)
Definition log_reset_exn (a : job) (w : world) : exn :=
  if bool_decide (normpath (errdir a) ∈ w_dirs w)
  then FileExistsError else PermissionError.

(** The world once lines 80-82 have succeeded. *)
Definition after_log_reset (a : job) (w : world) : world :=
  World (w_files w) (log_reset_dirs a w) (w_denied w) (w_stdin w)
    (w_trace w ++ [EvOpenRead template] ++ log_reset_events a w).

(** The world once the whole function has returned. *)
Definition deployed (a : job) (script : string) (w : world) : world :=
  World (<[group_phase_sbatch a := script]>
           (<[group_phase_sbatch a := ""]> (w_files w)))
        (log_reset_dirs a w) (w_denied w) (w_stdin w)
        (w_trace w ++ [EvOpenRead template] ++ log_reset_events a w
           ++ [EvOpenWrite (group_phase_sbatch a);
               EvWrite (group_phase_sbatch a) script]
           ++ submit_events a).


(** A deployment begins by opening the template (line 64). *)
Definition is_deployment (ev : event) : bool :=
  match ev with
  | EvOpenRead p => String.eqb p template
  | _ => false
  end.


(** The calls of the planner path up to the confirmation. *)
Definition planner_events (m : main_args) (source venvpath : string)
    (allocations : list allocation) : list event :=
  preamble_events m source venvpath
  ++ [EvCreateAllocations (m_phase m) (m_repeat_id m)]
  ++ map (fun alloc => EvPrint (summary alloc)) allocations
  ++ [EvInput prompt].

(** The calls of the time-override path up to the confirmation. *)
Definition override_events (m : main_args) (source venvpath : string)
    (codes : list string) : list event :=
  preamble_events m source venvpath
  ++ [EvProjCodes (m_repeat_id m);
      EvLogInfo ("All Datasets: " +:+ str_opt (m_time_allowed m) +:+ " ("
                 +:+ str_int (Z.of_nat (length codes)) +:+ ")");
      EvInput prompt].


(** The world after the confirmation has been read. *)
Definition asked (evs : list event) (rest : list string) (w : world) : world :=
  World (w_files w) (w_dirs w) (w_denied w) rest (w_trace w ++ evs).

End Run.

(** ** A concrete group, for evaluating the code *)

Module Example.
Import Py OS Padocc GroupRun.

Definition nl : string := String "010" "".

(** Modelled from the spec: the template file
    [extensions/templates/phase.sbatch.template] is not in the sources;
    this one has the fourteen positional slots the spec lists, in its
    order: job name, time, memory, stdout path, stderr path, environment
    path, working directory, group directory, entry-point path, phase,
    group id, time, memory, repeat id. *)
Definition phase_template : string :=
  join nl [ "#!/bin/bash";
            "#SBATCH --job-name={}";
            "#SBATCH --time={}";
            "#SBATCH --mem={}";
            "#SBATCH -o {}";
            "#SBATCH -e {}";
            "source {}/bin/activate";
            "export WORKDIR={}";
            "export GROUPDIR={}";
            "python {} {} $SLURM_ARRAY_TASK_ID -G {} -t {} -M {} -r {}" ]
  +:+ nl.

(** The planner answer of the spec's scenario. *)
Definition two_bands : list allocation :=
  [("01:00:00", "2G", 50); ("02:00:00", "4G", 10)].

Definition conf_of (codes : list string) : config :=
  Config "/gws/abcd" {[ "main" := codes ]}
    (fun _ _ _ _ => Ret two_bands) (fun _ => Ret tt).

Definition padocc_of (codes : list string) : package :=
  Package ["init"; "scan"; "compute"; "validate"]
    "['init', 'scan', 'compute', 'validate']"
    {[ "scan" := "10:00"; "compute" := "60:00" ]}
    (fun name v => match v with Some s => Ret s | None => Ret ("$" +:+ name) end)
    (fun _ _ => Ret (conf_of codes)).

(** A world with the template in place and an earlier log directory. *)
Definition world_of (denied : gset string) (stdin : list string) : world :=
  World {[ template := phase_template ]} {[ "/gws/abcd/errs/scan_main" ]}
    denied stdin [].

(** [deploy_array_job('scan', 'abcd', '/wd', '/gws/abcd', '/src', '/venv',
    group_len, logger, forceful=.., ...)] with the remaining keywords at
    the values the command line gives them when the option is absent. *)
Definition job_of (group_len : Z) (flag : option bool) (verbose : value)
    (memory : option string) (joblabel : option string) : job :=
  {| j_phase := "scan"; j_groupID := "abcd"; j_workdir := "/wd";
     j_groupdir := "/gws/abcd"; j_source := "/src"; j_venvpath := "/venv";
     j_group_len := group_len;
     j_forceful := flag; j_dryrun := flag; j_quality := flag;
     j_verbose := verbose; j_binpack := flag;
     j_time_allowed := None; j_memory := memory; j_subset := Some 1;
     j_repeat_id := "main"; j_bypass := "DBSCL"; j_mode := None;
     j_new_version := None; j_time := None; j_joblabel := joblabel |}.

(** [main('scan', 'abcd', ...)] as the command line calls it. *)
Definition main_of (dryrun : option bool) (verbose : value)
    (time_allowed : option string) : main_args :=
  {| m_phase := "scan"; m_groupID := "abcd"; m_workdir := Some "/wd";
     m_source := Some "/src"; m_venvpath := Some "/venv";
     m_input_file := None; m_band_increase := Some false;
     m_forceful := Some false; m_dryrun := dryrun; m_quality := Some false;
     m_verbose := verbose; m_binpack := Some false;
     m_time_allowed := time_allowed; m_memory := Some "2G";
     m_subset := Some 1; m_repeat_id := "main"; m_bypass := "DBSCL";
     m_mode := None; m_new_version := None |}.

End Example.

(** ** Reading a trace *)

Module Effects.
Import Py OS Padocc GroupRun Run.

(** An [os.system] call whose command line begins with [sbatch ]. *)
Definition is_sbatch (ev : event) : bool :=
  match ev with
  | EvSystem cmd => is_not_None (strip_prefix "sbatch " cmd)
  | _ => false
  end.

(** A [print] of a line that begins with [sbatch ]. *)
Definition is_sbatch_print (ev : event) : bool :=
  match ev with
  | EvPrint line => is_not_None (strip_prefix "sbatch " line)
  | _ => false
  end.

(** The job [a] called with another [repeat_id] and [joblabel]. *)
Definition relabel (a : job) (repeat_id : string) (joblabel : option string)
    : job :=
  {| j_phase := j_phase a; j_groupID := j_groupID a;
     j_workdir := j_workdir a; j_groupdir := j_groupdir a;
     j_source := j_source a; j_venvpath := j_venvpath a;
     j_group_len := j_group_len a;
     j_forceful := j_forceful a; j_dryrun := j_dryrun a;
     j_quality := j_quality a; j_verbose := j_verbose a;
     j_binpack := j_binpack a; j_time_allowed := j_time_allowed a;
     j_memory := j_memory a; j_subset := j_subset a;
     j_repeat_id := repeat_id; j_bypass := j_bypass a;
     j_mode := j_mode a; j_new_version := j_new_version a;
     j_time := j_time a; j_joblabel := joblabel |}.

(** The package with another table of default times. *)
Definition with_times (P : package) (table : gmap string string) : package :=
  Package (KNOWN_PHASES P) (KNOWN_PHASES_str P) table
    (get_attribute P) (Configuration P).

End Effects.

(** ** More concrete groups *)

Module Cases.
Import Py OS Padocc GroupRun Example.

(** The arguments [m] for another phase and repeat id. *)
Definition retarget (m : main_args) (phase repeat_id : string) : main_args :=
  {| m_phase := phase; m_groupID := m_groupID m; m_workdir := m_workdir m;
     m_source := m_source m; m_venvpath := m_venvpath m;
     m_input_file := m_input_file m; m_band_increase := m_band_increase m;
     m_forceful := m_forceful m; m_dryrun := m_dryrun m;
     m_quality := m_quality m; m_verbose := m_verbose m;
     m_binpack := m_binpack m; m_time_allowed := m_time_allowed m;
     m_memory := m_memory m; m_subset := m_subset m;
     m_repeat_id := repeat_id; m_bypass := m_bypass m;
     m_mode := m_mode m; m_new_version := m_new_version m |}.

(** The example group with a planner that answers [plan]. *)
Definition conf_planning (plan : outcome (list allocation)) : config :=
  Config "/gws/abcd" {[ "main" := ["a"; "b"; "c"] ]}
    (fun _ _ _ _ => plan) (fun _ => Ret tt).

Definition padocc_planning (plan : outcome (list allocation)) : package :=
  Package (KNOWN_PHASES (padocc_of [])) (KNOWN_PHASES_str (padocc_of []))
    (times (padocc_of [])) (get_attribute (padocc_of []))
    (fun _ _ => Ret (conf_planning plan)).

(** The template of the example group as lines 86-95 fill it. *)
Definition scan_script : string :=
  join nl
    [ "#!/bin/bash";
      "#SBATCH --job-name=abcd_scan";
      "#SBATCH --time=10:00";
      "#SBATCH --mem=2G";
      "#SBATCH -o /dev/null";
      "#SBATCH -e /gws/abcd/errs/scan_main/%A_%a.log";
      "source /venv/bin/activate";
      "export WORKDIR=/wd";
      "export GROUPDIR=/gws/abcd";
      "python /src/single_run.py scan $SLURM_ARRAY_TASK_ID -G abcd -t 10:00 -M 2G -r main" ].

End Cases.

(** ** [single_run.py] *)

Module SingleRun.
Import Py.

(** [main] raises [NotImplementedError] itself; anything else comes out of
    the [padocc] package. *)
Inductive exn :=
  | NotImplementedError
  | PadoccError.

Inductive result (A : Type) :=
  | Done (a : A)
  | Raised (e : exn).
Arguments Done {A} a.
Arguments Raised {A} e.

Section Kwargs.

(** The keyword arguments that [**kwargs] collects; [main] hands them on
    without looking at them. *)
Variable K : Type.

(** The calls into [padocc], with the arguments that [main] passes. *)
Inductive call :=
  | CallBypassSwitch (switch : string)
  | CallConfiguration (workdir : option string) (groupID logid : string)
      (verbose : Z)
  | CallCheckWritable
  | CallRunGroup (proj_code mode repeat_id phase : string) (kwargs : K).

(** A [Configuration] object as [main] uses it. *)
Record config := Config {
  check_writable : result unit;
  run_group : string -> string -> string -> string -> K -> result unit
}.

Record package := Package {
  BypassSwitch : string -> result unit;
  Configuration : option string -> string -> string -> Z -> result config
}.

(** [os.getenv(name)] in an environment. *)
Definition getenv (env : gmap string string) (name : string) : option string :=
  env !! name.

(** [str(x)] of what [os.getenv] returns. *)
Definition str_env (o : option string) : string :=
  match o with
  | Some s => s
  | None => "None"
  end.

(** Lines 40-46: the log id. *)
Definition logid (env : gmap string string) : string :=
  if truthy_str (getenv env "SLURM_ARRAY_JOB_ID") then
    let jobid := getenv env "SLURM_ARRAY_JOB_ID" in
    let taskid := getenv env "SLURM_ARRAY_TASK_ID" in
    str_env jobid +:+ "-" +:+ str_env taskid
  else "".

(** [main(phase, proj_code, workdir, groupID, verbose, repeat_id, bypass,
    mode, **kwargs)]: the outcome and the calls made, in order. *)
Definition main (P : package) (env : gmap string string)
    (phase proj_code : string) (workdir groupID : option string)
    (verbose : Z) (repeat_id bypass mode : string) (kwargs : K)
    : result unit * list call :=
  (* lines 40-46 *)
  let logid := logid env in
  (* lines 48-49 *)
  match groupID with
  | None => (Raised NotImplementedError, [])
  | Some group =>
      (* line 51 *)
      let calls := [CallBypassSwitch bypass] in
      match BypassSwitch P bypass with
      | Raised e => (Raised e, calls)
      | Done _ =>
          (* line 53 *)
          let calls := calls ++ [CallConfiguration workdir group logid verbose] in
          match Configuration P workdir group logid verbose with
          | Raised e => (Raised e, calls)
          | Done conf =>
              (* line 54 *)
              let calls := calls ++ [CallCheckWritable] in
              match check_writable conf with
              | Raised e => (Raised e, calls)
              | Done _ =>
                  (* line 56 *)
                  (run_group conf proj_code mode repeat_id phase kwargs,
                   calls ++ [CallRunGroup proj_code mode repeat_id phase kwargs])
              end
          end
      end
  end.

(** A call other than the construction of the bypass switch. *)
Definition past_bypass (c : call) : bool :=
  match c with
  | CallBypassSwitch _ => false
  | _ => true
  end.

End Kwargs.

Arguments CallBypassSwitch {K} switch.
Arguments CallConfiguration {K} workdir groupID logid verbose.
Arguments CallCheckWritable {K}.
Arguments CallRunGroup {K} proj_code mode repeat_id phase kwargs.
Arguments Config {K} check_writable run_group.
Arguments check_writable {K} c.
Arguments run_group {K} c proj_code mode repeat_id phase kwargs.
Arguments Package {K} BypassSwitch Configuration.
Arguments BypassSwitch {K} p switch.
Arguments Configuration {K} p workdir groupID logid verbose.
Arguments main {K} P env phase proj_code workdir groupID verbose repeat_id
  bypass mode kwargs.
Arguments past_bypass {K} c.

(** The keyword arguments of the command line of [single_run.py]. *)
Record cli_kwargs := CliKwargs {
  k_forceful : bool;
  k_dryrun : bool;
  k_quality : bool;
  k_binpack : bool;
  k_time_allowed : option string;
  k_memory : string;
  k_subset : Z;
  k_new_version : option string
}.

(** A package whose calls all return, for evaluating the code. *)
Definition obliging : package cli_kwargs :=
  Package (fun _ => Done tt)
    (fun _ _ _ _ => Done (Config (Done tt) (fun _ _ _ _ _ => Done tt))).

Definition no_flags : cli_kwargs :=
  CliKwargs false false false false None "2G" 1 None.

End SingleRun.


Import Py OS Padocc GroupRun Run Example.
Local Open Scope py_scope.


(** *** Running a computation step by step *)

Lemma bind_ret_run {A B} (c : M A) (k : A -> M B) w a w' :
  c w = (Ret a, w') -> bind c k w = k a w'.
Proof. unfold bind. intros ->. reflexivity. Qed.

Lemma bind_raise_run {A B} (c : M A) (k : A -> M B) w e w' :
  c w = (Raise e, w') -> bind c k w = (Raise e, w').
Proof. unfold bind. intros ->. reflexivity. Qed.

Lemma lift_run {A} (o : outcome A) w : lift o w = (o, w).
Proof. reflexivity. Qed.

Lemma emit_run ev w : emit ev w = (Ret tt, log [ev] w).
Proof. reflexivity. Qed.

Lemma log_log evs1 evs2 w : log evs2 (log evs1 w) = log (evs1 ++ evs2) w.
Proof. unfold log; simpl. by rewrite <- app_assoc. Qed.

Lemma open_read_run path w :
  open_read path w =
    (match w_files w !! path with
     | Some text => Ret text
     | None => Raise FileNotFoundError
     end, log [EvOpenRead path] w).
Proof.
  unfold open_read. rewrite (bind_ret_run _ _ _ _ _ (emit_run _ _)).
  simpl. by destruct (w_files w !! path).
Qed.

Lemma isdir_run path w :
  isdir path w =
    (Ret (bool_decide (normpath path ∈ w_dirs w)), log [EvIsdir path] w).
Proof. reflexivity. Qed.

Lemma strip_prefix_rm (p : string) :
  strip_prefix "rm -rf " ("rm -rf " +:+ p) = Some p.
Proof. reflexivity. Qed.

Lemma strip_prefix_sbatch (a : job) :
  strip_prefix "rm -rf " (sbatch_command a) = None.
Proof. reflexivity. Qed.

Lemma system_rm_run path w :
  system ("rm -rf " +:+ path) w =
    (Ret tt,
     log [EvSystem ("rm -rf " +:+ path)]
       (if bool_decide (normpath path ∈ w_denied w) then w
        else with_fs (w_files w) (w_dirs w ∖ {[normpath path]}) w)).
Proof.
  unfold system. rewrite (bind_ret_run _ _ _ _ _ (emit_run _ _)).
  rewrite strip_prefix_rm. simpl. by case_bool_decide.
Qed.

Lemma system_sbatch_run a w :
  system (sbatch_command a) w = (Ret tt, log [EvSystem (sbatch_command a)] w).
Proof.
  unfold system. rewrite (bind_ret_run _ _ _ _ _ (emit_run _ _)).
  by rewrite strip_prefix_sbatch.
Qed.

Lemma makedirs_run path w :
  makedirs path w =
    if bool_decide (normpath path ∈ w_dirs w)
    then (Raise FileExistsError, log [EvMakedirs path] w)
    else if bool_decide (normpath path ∈ w_denied w)
    then (Raise PermissionError, log [EvMakedirs path] w)
    else (Ret tt,
          log [EvMakedirs path]
            (with_fs (w_files w) ({[normpath path]} ∪ w_dirs w) w)).
Proof.
  unfold makedirs. rewrite (bind_ret_run _ _ _ _ _ (emit_run _ _)).
  simpl. by repeat case_bool_decide.
Qed.

Lemma open_write_run path w :
  open_write path w =
    if bool_decide (path ∈ w_denied w)
    then (Raise PermissionError, log [EvOpenWrite path] w)
    else (Ret tt,
          log [EvOpenWrite path]
            (with_fs (<[path := ""]> (w_files w)) (w_dirs w) w)).
Proof.
  unfold open_write. rewrite (bind_ret_run _ _ _ _ _ (emit_run _ _)).
  simpl. by case_bool_decide.
Qed.

Lemma write_run path content w :
  write path content w =
    (Ret tt,
     log [EvWrite path content]
       (with_fs (<[path := content]> (w_files w)) (w_dirs w) w)).
Proof. reflexivity. Qed.

Lemma input_run prompt w :
  input prompt w =
    match w_stdin w with
    | line :: rest =>
        (Ret line,
         World (w_files w) (w_dirs w) (w_denied w) rest
           (w_trace w ++ [EvInput prompt]))
    | [] => (Raise EOFError, log [EvInput prompt] w)
    end.
Proof.
  unfold input. rewrite (bind_ret_run _ _ _ _ _ (emit_run _ _)).
  simpl. by destruct (w_stdin w).
Qed.


Lemma for_each_print {A} (f : A -> string) (xs : list A) w :
  for_each xs (fun x => print (f x)) w
  = (Ret tt, log (map (fun x => EvPrint (f x)) xs) w).
Proof.
  revert w. induction xs as [|x xs IH]; intros w; simpl.
  - unfold ret, log. rewrite app_nil_r. by destruct w.
  - erewrite bind_ret_run by apply emit_run.
    rewrite IH, log_log. reflexivity.
Qed.

Lemma for_each_raise {A} (body : A -> M unit) x xs w e w' :
  body x w = (Raise e, w') -> for_each (x :: xs) body w = (Raise e, w').
Proof. intros H. simpl. by apply bind_raise_run. Qed.

Lemma for_each_cons {A} (body : A -> M unit) x xs w w' :
  body x w = (Ret tt, w') -> for_each (x :: xs) body w = for_each xs body w'.
Proof. intros H. simpl. by erewrite bind_ret_run. Qed.

(** A loop is left by the first exception of its body, wherever in the
    list it is raised. *)
Lemma for_each_app_raise {A} (body : A -> M unit) (done : list A) (x : A)
    (others : list A) (w w2 w3 : world) (e : exn) :
  for_each done body w = (Ret tt, w2) ->
  body x w2 = (Raise e, w3) ->
  for_each (done ++ x :: others) body w = (Raise e, w3).
Proof.
  revert w. induction done as [|y done IH]; intros w Hdone Hx.
  - simpl in Hdone. unfold ret in Hdone. injection Hdone as <-.
    by apply for_each_raise.
  - simpl in Hdone. unfold bind in Hdone.
    destruct (body y w) as [[[]|e'] w'] eqn:Hy; [|discriminate].
    change ((y :: done) ++ x :: others) with (y :: (done ++ x :: others)).
    rewrite (for_each_cons body y _ w w' Hy). by apply IH.
Qed.

(** *** The log directory reset of lines 80-82 *)

Lemma log_reset_run {B} (a : job) (k : M B) (w : world) :
  bind (isdir (errdir a)) (fun exists_ =>
    bind (when exists_ (system ("rm -rf " +:+ errdir a))) (fun _ =>
      bind (makedirs (errdir a)) (fun _ => k))) w
  = if bool_decide (normpath (errdir a) ∈ w_denied w)
    then (Raise (log_reset_exn a w), log (log_reset_events a w) w)
    else k (World (w_files w) (log_reset_dirs a w) (w_denied w) (w_stdin w)
              (w_trace w ++ log_reset_events a w)).
Proof.
  erewrite bind_ret_run by apply isdir_run.
  unfold log_reset_exn, log_reset_events, log_reset_dirs, when.
  change (w_dirs (log [EvIsdir (errdir a)] w)) with (w_dirs w).
  destruct (bool_decide (normpath (errdir a) ∈ w_dirs w)) eqn:Hex.
  - erewrite bind_ret_run by apply system_rm_run.
    change (w_denied (log [EvIsdir (errdir a)] w)) with (w_denied w).
    destruct (bool_decide (normpath (errdir a) ∈ w_denied w)) eqn:Hden.
    + rewrite log_log.
      erewrite bind_raise_run; [reflexivity|].
      rewrite makedirs_run. simpl. rewrite Hex. unfold log. simpl.
      by rewrite <- !app_assoc.
    + erewrite bind_ret_run; [reflexivity|].
      rewrite makedirs_run. simpl.
      rewrite (bool_decide_eq_false_2 (_ ∈ _ ∖ _)), Hden;
        [|rewrite elem_of_difference, elem_of_singleton; tauto].
      unfold log, with_fs. simpl. by rewrite <- !app_assoc.
  - erewrite bind_ret_run by reflexivity.
    destruct (bool_decide (normpath (errdir a) ∈ w_denied w)) eqn:Hden.
    + erewrite bind_raise_run; [reflexivity|].
      rewrite makedirs_run. simpl. rewrite Hex, Hden. unfold log. simpl.
      by rewrite <- !app_assoc.
    + erewrite bind_ret_run; [reflexivity|].
      rewrite makedirs_run. simpl. rewrite Hex, Hden.
      unfold log, with_fs. simpl. by rewrite <- !app_assoc.
Qed.

(** *** [deploy_array_job] as a decision tree *)

Lemma deploy_array_job_cases (P : package) (a : job) (w : world) :
  deploy_array_job P a w =
    match w_files w !! template with
    | None => (Raise FileNotFoundError, log [EvOpenRead template] w)
    | Some text =>
        match resolve_time P a with
        | Raise e => (Raise e, log [EvOpenRead template] w)
        | Ret time =>
            if bool_decide (normpath (errdir a) ∈ w_denied w)
            then (Raise (log_reset_exn a w),
                  log ([EvOpenRead template] ++ log_reset_events a w) w)
            else
              match format (read_template text) (slots a time) with
              | Raise e => (Raise e, after_log_reset a w)
              | Ret sb =>
                  match len (j_verbose a) with
                  | Raise e => (Raise e, after_log_reset a w)
                  | Ret n =>
                      if bool_decide (group_phase_sbatch a ∈ w_denied w)
                      then (Raise PermissionError,
                            log [EvOpenWrite (group_phase_sbatch a)]
                              (after_log_reset a w))
                      else (Ret tt, deployed a (carry_through a sb n) w)
                  end
              end
        end
    end.
Proof.
  unfold deploy_array_job.
  destruct (w_files w !! template) as [text|] eqn:Htext.
  2:{ erewrite bind_raise_run; [reflexivity|]. by rewrite open_read_run, Htext. }
  erewrite bind_ret_run; [|by rewrite open_read_run, Htext].
  destruct (resolve_time P a) as [time|e] eqn:Htime.
  2:{ erewrite bind_raise_run; [reflexivity|]. by rewrite lift_run. }
  erewrite bind_ret_run by apply lift_run.
  rewrite log_reset_run.
  change (w_dirs (log [EvOpenRead template] w)) with (w_dirs w).
  change (w_denied (log [EvOpenRead template] w)) with (w_denied w).
  destruct (bool_decide (normpath (errdir a) ∈ w_denied w)) eqn:Hden.
  { by rewrite log_log. }
  fold (read_template text).
  match goal with
  | |- context [World ?f ?d ?de ?s ?t] =>
      replace (World f d de s t) with (after_log_reset a w)
        by (unfold after_log_reset, log; simpl; by rewrite <- app_assoc)
  end.
  destruct (format (read_template text) (slots a time)) as [sb|e] eqn:Hfmt.
  2:{ erewrite bind_raise_run; [reflexivity|]. by rewrite lift_run. }
  erewrite bind_ret_run by apply lift_run.
  destruct (len (j_verbose a)) as [n|e] eqn:Hlen.
  2:{ erewrite bind_raise_run; [reflexivity|]. by rewrite lift_run. }
  erewrite bind_ret_run by apply lift_run.
  fold (carry_through a sb n).
  pose proof (open_write_run (group_phase_sbatch a) (after_log_reset a w)) as Hopen.
  change (w_denied (after_log_reset a w)) with (w_denied w) in Hopen.
  destruct (bool_decide (group_phase_sbatch a ∈ w_denied w)) eqn:Hpath.
  { by erewrite bind_raise_run. }
  erewrite bind_ret_run by exact Hopen. clear Hopen.
  erewrite bind_ret_run by apply write_run.
  unfold deployed, submit_events.
  destruct (truthy_bool (j_dryrun a)).
  - unfold log_info, print. erewrite bind_ret_run by apply emit_run.
    rewrite emit_run. unfold log, with_fs, after_log_reset.
    cbn [w_files w_dirs w_denied w_stdin w_trace].
    by rewrite <- !app_assoc.
  - rewrite system_sbatch_run. unfold log, with_fs, after_log_reset.
    cbn [w_files w_dirs w_denied w_stdin w_trace].
    by rewrite <- !app_assoc.
Qed.

(** *** What [deploy_array_job] can put in the trace *)



(** ** The rendered script *)

(** Membership in the denied paths of a concrete world, by evaluation. *)
Lemma not_denied (path : string) (w : world) :
  bool_decide (path ∈ w_denied w) = false -> path ∉ w_denied w.
Proof. apply bool_decide_eq_false_1. Qed.

Lemma is_denied (path : string) (w : world) :
  bool_decide (path ∈ w_denied w) = true -> path ∈ w_denied w.
Proof. apply bool_decide_eq_true_1. Qed.

Lemma append_assoc (s1 s2 s3 : string) :
  (s1 +:+ s2) +:+ s3 = s1 +:+ s2 +:+ s3.
Proof.
  induction s1 as [|c s1 IH]; [reflexivity|].
  change (String c ((s1 +:+ s2) +:+ s3) = String c (s1 +:+ s2 +:+ s3)).
  by rewrite IH.
Qed.

(** What lines 98-116 append for a job whose four switches are [False]
    and whose other options are absent, whatever the template text: the
    switches are all there. *)
Lemma carry_through_False_flags (a : job) (sb : string) :
  j_forceful a = Some false -> j_quality a = Some false ->
  j_dryrun a = Some false -> j_binpack a = Some false ->
  j_subset a = None -> j_new_version a = None -> j_mode a = None ->
  carry_through a sb 0 = sb +:+ " -b " +:+ j_bypass a +:+ " -f -Q -d -A".
Proof.
  intros Hf Hq Hd Hb Hs Hn Hm. unfold carry_through, append_if.
  rewrite Hf, Hq, Hd, Hb, Hs, Hn, Hm. cbn [is_not_None repeat_char].
  change (negb ("" =? "")%string) with false. cbv iota.
  rewrite !append_assoc. reflexivity.
Qed.

(** The script of the example group with the given last line. *)
Lemma example_script_eval :
  format (read_template phase_template)
    (slots (job_of 12 (Some false) (PyStr "") (Some "4G") None) "10:00")
  = Ret (join nl
      [ "#!/bin/bash";
        "#SBATCH --job-name=abcd_scan";
        "#SBATCH --time=10:00";
        "#SBATCH --mem=2G";
        "#SBATCH -o /dev/null";
        "#SBATCH -e /gws/abcd/errs/scan_main/%A_%a.log";
        "source /venv/bin/activate";
        "export WORKDIR=/wd";
        "export GROUPDIR=/gws/abcd";
        "python /src/single_run.py scan $SLURM_ARRAY_TASK_ID -G abcd -t 10:00 -M 2G -r main" ]).
Proof. vm_compute. reflexivity. Qed.

(** C1 (the code departs from the claim): a flag that is not set is still
    appended.  With [forceful], [quality], [dryrun] and [binpack] all
    [False], the values the command line gives them when the options are
    absent, and a [verbose] that [len] accepts, the script that
    [deploy_array_job] writes ends in [-b DBSCL -f -Q -d -A -s 1]: lines
    99-110 test [is not None], which [False] passes.  The job is
    nevertheless submitted for real, because line 122 tests the truth value
    of the same [dryrun]. *)
Theorem deploy_array_job_appends_unset_flags :
  let a := job_of 12 (Some false) (PyStr "") (Some "2G") None in
  let r := deploy_array_job (padocc_of []) a (world_of ∅ []) in
  r.1 = Ret tt
  /\ w_files r.2 !! "/gws/abcd/sbatch/scan.sbatch"
     = Some (join nl
         [ "#!/bin/bash";
           "#SBATCH --job-name=abcd_scan";
           "#SBATCH --time=10:00";
           "#SBATCH --mem=2G";
           "#SBATCH -o /dev/null";
           "#SBATCH -e /gws/abcd/errs/scan_main/%A_%a.log";
           "source /venv/bin/activate";
           "export WORKDIR=/wd";
           "export GROUPDIR=/gws/abcd";
           "python /src/single_run.py scan $SLURM_ARRAY_TASK_ID -G abcd -t 10:00 -M 2G -r main -b DBSCL -f -Q -d -A -s 1" ])
  /\ last (w_trace r.2)
     = Some (EvSystem "sbatch --array=0-11 /gws/abcd/sbatch/scan.sbatch").
Proof. vm_compute. repeat split; reflexivity. Qed.

(** Line 70 yields ['2G'] whatever [memory] is. *)
Lemma mem_is_2G (a : job) : mem a = Some "2G".
Proof. reflexivity. Qed.

(** C2 (the code departs from the claim): the memory slots of the template,
    the third and the thirteenth, are filled with ['2G'] for every job,
    because line 70 reads ['2G' or memory]; a job deployed with
    [memory='4G'] gets a script that asks for [2G]. *)
Theorem memory_slot_ignores_memory_argument :
  (forall (a : job) (time : string),
     slots a time !! 2%nat = Some "2G" /\ slots a time !! 12%nat = Some "2G")
  /\ let a := job_of 12 None (PyStr "") (Some "4G") None in
     let r := deploy_array_job (padocc_of []) a (world_of ∅ []) in
     j_memory a = Some "4G"
     /\ r.1 = Ret tt
     /\ w_files r.2 !! "/gws/abcd/sbatch/scan.sbatch"
        = Some (join nl
            [ "#!/bin/bash";
              "#SBATCH --job-name=abcd_scan";
              "#SBATCH --time=10:00";
              "#SBATCH --mem=2G";
              "#SBATCH -o /dev/null";
              "#SBATCH -e /gws/abcd/errs/scan_main/%A_%a.log";
              "source /venv/bin/activate";
              "export WORKDIR=/wd";
              "export GROUPDIR=/gws/abcd";
              "python /src/single_run.py scan $SLURM_ARRAY_TASK_ID -G abcd -t 10:00 -M 2G -r main -b DBSCL -s 1" ]).
Proof.
  split.
  - intros a time. split; reflexivity.
  - vm_compute. repeat split; reflexivity.
Qed.

(** With an integer [verbose] the function never returns normally. *)
Lemma deploy_array_job_int_verbose_never_returns (P : package) (a : job)
    (w : world) (v : Z) :
  j_verbose a = PyInt v ->
  exists e w', deploy_array_job P a w = (Raise e, w')
               /\ w_files w' = w_files w.
Proof.
  intros Hv. rewrite deploy_array_job_cases, Hv.
  destruct (w_files w !! template); [|by eauto].
  destruct (resolve_time P a); [|by eauto].
  case_bool_decide; [by eauto|].
  destruct (format _ _); simpl; by eauto.
Qed.

(** C3 (the code departs from the claim): for every integer [verbose],
    zero included, line 101 takes [len] of an integer and raises
    [TypeError].  When everything before that line succeeds, the log
    directory has been reset, no flag is appended, no script is written and
    nothing is submitted. *)
Theorem deploy_array_job_int_verbose_raises (P : package) (a : job)
    (w : world) (v : Z) (text time sb : string) :
  j_verbose a = PyInt v ->
  w_files w !! template = Some text ->
  resolve_time P a = Ret time ->
  normpath (errdir a) ∉ w_denied w ->
  format (read_template text) (slots a time) = Ret sb ->
  deploy_array_job P a w = (Raise TypeError, after_log_reset a w).
Proof.
  intros Hv Htext Htime Hden Hfmt.
  rewrite deploy_array_job_cases, Htext, Htime, Hfmt, Hv.
  by rewrite bool_decide_eq_false_2.
Qed.

Lemma deploy_array_job_int_verbose_raises_witness :
  let a := job_of 12 (Some false) (PyInt 2) (Some "2G") None in
  let w := world_of ∅ [] in
  deploy_array_job (padocc_of []) a w = (Raise TypeError, after_log_reset a w).
Proof.
  intros a w.
  eapply (deploy_array_job_int_verbose_raises (padocc_of []) a w 2
            phase_template "10:00").
  - reflexivity.
  - reflexivity.
  - reflexivity.
  - apply not_denied. vm_compute. reflexivity.
  - vm_compute. reflexivity.
Defined.

(** ** Dry run and the submission command *)

(** The branch of lines 122-126, for a run that gets there: when lines
    64-116 go through, which takes a [verbose] that [len] accepts,
    [deploy_array_job] resets the log
    directory whether or not the run is dry (an existing directory is
    removed with [rm -rf], then [os.makedirs] creates it), writes the
    script, and then: under dry-run it logs the notice and prints
    [sbatch --array=0-{N-1} {script_path}], running no command after the
    removal; without dry-run it hands that same command to [os.system]. *)
Theorem deploy_array_job_dryrun (P : package) (a : job) (w : world)
    (text time sb : string) (n : nat) :
  w_files w !! template = Some text ->
  resolve_time P a = Ret time ->
  normpath (errdir a) ∉ w_denied w ->
  format (read_template text) (slots a time) = Ret sb ->
  len (j_verbose a) = Ret n ->
  group_phase_sbatch a ∉ w_denied w ->
  let cmd := "sbatch --array=0-" +:+ str_int (j_group_len a - 1) +:+ " "
             +:+ group_phase_sbatch a in
  let reset :=
    [EvIsdir (errdir a)]
    ++ (if bool_decide (normpath (errdir a) ∈ w_dirs w)
        then [EvSystem ("rm -rf " +:+ errdir a)] else [])
    ++ [EvMakedirs (errdir a)] in
  let written :=
    [EvOpenWrite (group_phase_sbatch a);
     EvWrite (group_phase_sbatch a) (carry_through a sb n)] in
  exists w',
    deploy_array_job P a w = (Ret tt, w')
    /\ normpath (errdir a) ∈ w_dirs w'
    /\ (truthy_bool (j_dryrun a) = true ->
        w_trace w' = w_trace w ++ [EvOpenRead template] ++ reset ++ written
                     ++ [EvLogInfo "DRYRUN: sbatch command: "; EvPrint cmd])
    /\ (truthy_bool (j_dryrun a) = false ->
        w_trace w' = w_trace w ++ [EvOpenRead template] ++ reset ++ written
                     ++ [EvSystem cmd]).
Proof.
  intros Htext Htime Hden Hfmt Hlen Hpath cmd reset written.
  exists (deployed a (carry_through a sb n) w).
  split; [|split; [|split]].
  - rewrite deploy_array_job_cases, Htext, Htime, Hfmt, Hlen.
    by rewrite !bool_decide_eq_false_2.
  - unfold deployed, log_reset_dirs; simpl.
    case_bool_decide; apply elem_of_union_l; by apply elem_of_singleton.
  - intros Hdry. unfold deployed, submit_events; simpl. by rewrite Hdry.
  - intros Hdry. unfold deployed, submit_events; simpl. by rewrite Hdry.
Qed.

Lemma deploy_array_job_dryrun_witness :
  exists w',
    deploy_array_job (padocc_of [])
      (job_of 12 (Some true) (PyStr "") (Some "2G") None) (world_of ∅ [])
    = (Ret tt, w')
    /\ "/gws/abcd/errs/scan_main" ∈ w_dirs w'
    /\ last (w_trace w')
       = Some (EvPrint "sbatch --array=0-11 /gws/abcd/sbatch/scan.sbatch").
Proof.
  edestruct (deploy_array_job_dryrun (padocc_of [])
               (job_of 12 (Some true) (PyStr "") (Some "2G") None)
               (world_of ∅ []) phase_template "10:00")
    as (w' & Hrun & Hdir & Hdry & _).
  - reflexivity.
  - reflexivity.
  - apply not_denied. vm_compute. reflexivity.
  - vm_compute. reflexivity.
  - reflexivity.
  - apply not_denied. vm_compute. reflexivity.
  - exists w'. split; [exact Hrun|]. split; [exact Hdir|].
    rewrite (Hdry eq_refl). vm_compute. reflexivity.
Defined.

(** C8 (the code departs from the claim): with the [verbose] of the
    command line, an integer, the run never gets to lines 122-126.  For
    the allocation of 12 tasks, dry or not, [deploy_array_job] removes and
    recreates the log directory and then raises [TypeError] at line 101:
    the script is not written, and the command
    [sbatch --array=0-11 {script_path}] is neither printed nor run.  The
    defect is the [len(verbose)] of C3. *)
Theorem deploy_array_job_dryrun_reports_nothing :
  let reset :=
    [ EvOpenRead template;
      EvIsdir "/gws/abcd/errs/scan_main/";
      EvSystem "rm -rf /gws/abcd/errs/scan_main/";
      EvMakedirs "/gws/abcd/errs/scan_main/" ] in
  let dry := job_of 12 (Some true) (PyInt 0) (Some "2G") None in
  let wet := job_of 12 (Some false) (PyInt 0) (Some "2G") None in
  let r := deploy_array_job (padocc_of []) dry (world_of ∅ []) in
  let r' := deploy_array_job (padocc_of []) wet (world_of ∅ []) in
  (truthy_bool (j_dryrun dry) = true
   /\ r.1 = Raise TypeError
   /\ w_trace r.2 = reset
   /\ w_files r.2 !! "/gws/abcd/sbatch/scan.sbatch" = None)
  /\ (truthy_bool (j_dryrun wet) = false
      /\ r'.1 = Raise TypeError
      /\ w_trace r'.2 = reset
      /\ w_files r'.2 !! "/gws/abcd/sbatch/scan.sbatch" = None).
Proof. vm_compute. repeat split; reflexivity. Qed.

(** ** An allocation of zero tasks *)

(** C4 (the claim fails): a group without project codes is deployed like
    any other.  [main], given a time override and confirmed with [Y],
    counts zero datasets and [deploy_array_job] hands the array range
    [0--1] to [sbatch]. *)
Lemma zero_task_allocation_is_submitted :
  let m := main_of (Some false) (PyStr "") (Some "10:00") in
  let r := main (padocc_of []) m (world_of ∅ ["Y"]) in
  conf_proj_codes (conf_of []) !! m_repeat_id m = Some []
  /\ r.1 = Ret tt
  /\ last (w_trace r.2)
     = Some (EvSystem "sbatch --array=0--1 /gws/abcd/sbatch/scan.sbatch").
Proof. vm_compute. repeat split; reflexivity. Qed.

(** C4, amended: nothing in [deploy_array_job] looks at the task count.
    For an allocation of zero tasks whose rendering goes through, the
    script is written and the command [sbatch --array=0--1 {script_path}]
    is run, or printed under dry-run. *)
Theorem deploy_array_job_zero_tasks (P : package) (a : job) (w : world)
    (text time sb : string) (n : nat) :
  j_group_len a = 0 ->
  w_files w !! template = Some text ->
  resolve_time P a = Ret time ->
  normpath (errdir a) ∉ w_denied w ->
  format (read_template text) (slots a time) = Ret sb ->
  len (j_verbose a) = Ret n ->
  group_phase_sbatch a ∉ w_denied w ->
  exists w',
    deploy_array_job P a w = (Ret tt, w')
    /\ w_files w' !! group_phase_sbatch a = Some (carry_through a sb n)
    /\ last (w_trace w')
       = Some (let cmd := "sbatch --array=0--1 " +:+ group_phase_sbatch a in
               if truthy_bool (j_dryrun a) then EvPrint cmd else EvSystem cmd).
Proof.
  intros Hzero Htext Htime Hden Hfmt Hlen Hpath.
  exists (deployed a (carry_through a sb n) w).
  split; [|split].
  - rewrite deploy_array_job_cases, Htext, Htime, Hfmt, Hlen.
    by rewrite !bool_decide_eq_false_2.
  - unfold deployed; simpl. apply lookup_insert_eq.
  - unfold deployed, submit_events, sbatch_command.
    cbn [w_trace]. rewrite Hzero, !last_app.
    by destruct (truthy_bool (j_dryrun a)).
Qed.

Lemma deploy_array_job_zero_tasks_witness :
  exists w',
    deploy_array_job (padocc_of [])
      (job_of 0 (Some true) (PyStr "") (Some "2G") None) (world_of ∅ [])
    = (Ret tt, w')
    /\ last (w_trace w')
       = Some (EvPrint "sbatch --array=0--1 /gws/abcd/sbatch/scan.sbatch").
Proof.
  edestruct (deploy_array_job_zero_tasks (padocc_of [])
               (job_of 0 (Some true) (PyStr "") (Some "2G") None)
               (world_of ∅ []) phase_template "10:00")
    as (w' & Hrun & _ & Hlast).
  - reflexivity.
  - reflexivity.
  - reflexivity.
  - apply not_denied. vm_compute. reflexivity.
  - vm_compute. reflexivity.
  - reflexivity.
  - apply not_denied. vm_compute. reflexivity.
  - exists w'. split; [exact Hrun|]. exact Hlast.
Defined.

(** ** The repeat id of a labelled job *)

Lemma replace_char_app (x y : ascii) (s1 s2 : string) :
  replace_char x y (s1 +:+ s2) = replace_char x y s1 +:+ replace_char x y s2.
Proof.
  induction s1 as [|c s1 IH]; [reflexivity|].
  change (String (if Ascii.eqb c x then y else c) (replace_char x y (s1 +:+ s2))
          = String (if Ascii.eqb c x then y else c)
              (replace_char x y s1 +:+ replace_char x y s2)).
  by rewrite IH.
Qed.

(** C9 (the claim fails): with label [band1] and repeat id [main] the
    repeat id handed on is [main/band1], not [band1/main]; it fills the
    last slot of the template and names the log directory
    [scan_main_band1]. *)
Lemma repeat_id_is_not_label_then_repeat :
  let a := job_of 12 None (PyStr "") (Some "2G") (Some "band1") in
  j_joblabel a = Some "band1" /\ j_repeat_id a = "main"
  /\ repeat_id a = "main/band1"
  /\ repeat_id a <> "band1/main"
  /\ last (slots a "10:00") = Some "main/band1"
  /\ errdir a = "/gws/abcd/errs/scan_main_band1/".
Proof. vm_compute. repeat split; try reflexivity. discriminate. Qed.

(** C9, amended: for every non-empty job label, the repeat id handed on is
    [repeat/label]: it fills the last slot of the template, and the log
    directory is named after it with each slash replaced by an
    underscore. *)
Theorem repeat_id_with_label (a : job) (label time : string) :
  j_joblabel a = Some label ->
  label <> "" ->
  repeat_id a = j_repeat_id a +:+ "/" +:+ label
  /\ last (slots a time) = Some (j_repeat_id a +:+ "/" +:+ label)
  /\ errdir a = j_groupdir a +:+ "/errs/" +:+ j_phase a +:+ "_"
                +:+ replace_char "/" "_" (j_repeat_id a) +:+ "_"
                +:+ replace_char "/" "_" label +:+ "/".
Proof.
  intros Hlabel Hne.
  assert (Hrep : repeat_id a = j_repeat_id a +:+ "/" +:+ label).
  { unfold repeat_id, truthy_str. rewrite Hlabel.
    apply String.eqb_neq in Hne. by rewrite Hne. }
  split; [exact Hrep|]. split.
  - unfold slots. simpl. by rewrite Hrep.
  - unfold errdir. rewrite Hrep, !replace_char_app.
    by rewrite !append_assoc.
Qed.

Lemma repeat_id_with_label_witness :
  let a := job_of 12 None (PyStr "") (Some "2G") (Some "band1") in
  repeat_id a = "main/band1"
  /\ last (slots a "10:00") = Some "main/band1"
  /\ errdir a = "/gws/abcd/errs/scan_main_band1/".
Proof.
  intros a.
  apply (repeat_id_with_label a "band1" "10:00").
  - reflexivity.
  - discriminate.
Defined.

Lemma quiet_prints {A} (f : A -> string) (xs : list A) :
  forallb quiet (map (fun x => EvPrint (f x)) xs) = true.
Proof. induction xs as [|x xs IH]; [reflexivity|exact IH]. Qed.


(** *** [main] up to the confirmation *)

Section Main.

Variables (P : package) (m : main_args).
Variables (workdir source venvpath : string) (conf : config).

Hypothesis Hworkdir : get_attribute P "WORKDIR" (m_workdir m) = Ret workdir.
Hypothesis Hsource : get_attribute P "SRCDIR" (m_source m) = Ret source.
Hypothesis Hvenvpath : get_attribute P "KVENV" (m_venvpath m) = Ret venvpath.
Hypothesis Hconf : Configuration P (m_groupID m) workdir = Ret conf.
Hypothesis Hknown : m_phase m ∈ KNOWN_PHASES P.
Hypothesis Hparallel : m_phase m <> "init".

Lemma main_planner_run (allocations : list allocation) (answer : string)
    (rest : list string) (w : world) :
  truthy_str (m_time_allowed m) = false ->
  conf_create_allocations conf (m_phase m) (m_repeat_id m)
    (m_band_increase m) (m_binpack m) = Ret allocations ->
  w_stdin w = answer :: rest ->
  main P m w =
    (if negb (String.eqb answer "Y") then raise KeyboardInterrupt
     else for_each allocations (fun alloc =>
            deploy_array_job P
              (array_job m workdir (conf_dir conf) source venvpath alloc.2)))
      (asked (planner_events m source venvpath allocations) rest w).
Proof.
  intros Htime Hplan Hin. unfold main, call_get_attribute.
  do 3 (erewrite bind_ret_run;
        [|erewrite bind_ret_run by apply emit_run; rewrite lift_run;
          first [rewrite Hworkdir|rewrite Hsource|rewrite Hvenvpath];
          reflexivity]).
  erewrite bind_ret_run by apply emit_run.
  erewrite bind_ret_run; [|by rewrite lift_run, Hconf].
  rewrite bool_decide_eq_true_2 by done. cbn [negb].
  erewrite bind_ret_run by apply emit_run.
  apply String.eqb_neq in Hparallel. rewrite Hparallel, Htime.
  cbn [negb].
  erewrite bind_ret_run by apply emit_run.
  erewrite bind_ret_run; [|by rewrite lift_run, Hplan].
  erewrite bind_ret_run by apply for_each_print.
  rewrite !log_log.
  erewrite bind_ret_run; [|by rewrite input_run; simpl; rewrite Hin].
  unfold asked, planner_events, preamble_events; simpl.
  rewrite <- !app_assoc. reflexivity.
Qed.

Lemma main_override_run (codes : list string) (answer : string)
    (rest : list string) (w : world) :
  truthy_str (m_time_allowed m) = true ->
  conf_proj_codes conf !! m_repeat_id m = Some codes ->
  w_stdin w = answer :: rest ->
  main P m w =
    (if negb (String.eqb answer "Y") then raise KeyboardInterrupt
     else deploy_array_job P
            (array_job m workdir (conf_dir conf) source venvpath
               (Z.of_nat (length codes))))
      (asked (override_events m source venvpath codes) rest w).
Proof.
  intros Htime Hcodes Hin. unfold main, call_get_attribute.
  do 3 (erewrite bind_ret_run;
        [|erewrite bind_ret_run by apply emit_run; rewrite lift_run;
          first [rewrite Hworkdir|rewrite Hsource|rewrite Hvenvpath];
          reflexivity]).
  erewrite bind_ret_run by apply emit_run.
  erewrite bind_ret_run; [|by rewrite lift_run, Hconf].
  rewrite bool_decide_eq_true_2 by done. cbn [negb].
  erewrite bind_ret_run by apply emit_run.
  apply String.eqb_neq in Hparallel. rewrite Hparallel, Htime.
  cbn [negb].
  erewrite bind_ret_run by apply emit_run.
  erewrite bind_ret_run; [|by rewrite lift_run, Hcodes].
  unfold log_info.
  erewrite bind_ret_run by apply emit_run.
  rewrite !log_log.
  erewrite bind_ret_run; [|by rewrite input_run; simpl; rewrite Hin].
  unfold asked, override_events, preamble_events; simpl.
  rewrite <- !app_assoc. reflexivity.
Qed.

(** C6: whatever is typed at the confirmation other than exactly [Y],
    [main] raises [KeyboardInterrupt], on the planner path and on the
    time-override path alike; up to then it has only asked [padocc],
    printed, logged and prompted, and it leaves the files and directories
    as they were: no template opened, no script written, no command run. *)
Theorem main_declined_confirmation (answer : string) (rest : list string)
    (w : world) :
  answer <> "Y" ->
  w_stdin w = answer :: rest ->
  (truthy_str (m_time_allowed m) = false /\
   exists allocations,
     conf_create_allocations conf (m_phase m) (m_repeat_id m)
       (m_band_increase m) (m_binpack m) = Ret allocations)
  \/ (truthy_str (m_time_allowed m) = true /\
      exists codes, conf_proj_codes conf !! m_repeat_id m = Some codes) ->
  exists evs,
    main P m w
    = (Raise KeyboardInterrupt,
       World (w_files w) (w_dirs w) (w_denied w) rest (w_trace w ++ evs))
    /\ forallb quiet evs = true.
Proof.
  intros Hne Hin Hpath. apply String.eqb_neq in Hne.
  destruct Hpath as [[Htime [allocations Hplan]]|[Htime [codes Hcodes]]].
  - exists (planner_events m source venvpath allocations). split.
    + rewrite (main_planner_run allocations answer rest w Htime Hplan Hin).
      by rewrite Hne.
    + unfold planner_events. rewrite !forallb_app, quiet_prints. reflexivity.
  - exists (override_events m source venvpath codes). split.
    + rewrite (main_override_run codes answer rest w Htime Hcodes Hin).
      by rewrite Hne.
    + reflexivity.
Qed.


Lemma planner_job_time (n : Z) :
  truthy_str (m_time_allowed m) = false ->
  resolve_time P (array_job m workdir (conf_dir conf) source venvpath n)
  = match times P !! m_phase m with
    | Some t => Ret t
    | None => Raise KeyError
    end.
Proof. intros Htime. unfold resolve_time; simpl. by rewrite Htime. Qed.




(** C5, amended: on the planner path, confirmed with [Y], when the log
    directory of the first allocation cannot be made, [main] ends with the
    exception of [os.makedirs] ([FileExistsError] when the directory was
    there and [rm -rf] could not remove it, [PermissionError] otherwise).
    The calls of the run stop at that [os.makedirs]: the script of the
    allocation is not written and no allocation after it is tried. *)
Theorem main_log_reset_failure (alloc : allocation)
    (others : list allocation) (rest : list string) (w : world)
    (text time : string) :
  truthy_str (m_time_allowed m) = false ->
  conf_create_allocations conf (m_phase m) (m_repeat_id m)
    (m_band_increase m) (m_binpack m) = Ret (alloc :: others) ->
  w_stdin w = "Y" :: rest ->
  w_files w !! template = Some text ->
  times P !! m_phase m = Some time ->
  let a := array_job m workdir (conf_dir conf) source venvpath alloc.2 in
  normpath (errdir a) ∈ w_denied w ->
  main P m w
  = (Raise (log_reset_exn a w),
     World (w_files w) (w_dirs w) (w_denied w) rest
       (w_trace w ++ planner_events m source venvpath (alloc :: others)
          ++ [EvOpenRead template] ++ log_reset_events a w)).
Proof.
  intros Htime Hplan Hin Htext Hdefault a Hden.
  rewrite (main_planner_run (alloc :: others) "Y" rest w Htime Hplan Hin).
  change (negb ("Y" =? "Y")%string) with false. cbv iota.
  apply (for_each_raise (fun alloc0 : allocation =>
           deploy_array_job P
             (array_job m workdir (conf_dir conf) source venvpath alloc0.2))).
  fold a. rewrite deploy_array_job_cases.
  change (w_files (asked _ rest w)) with (w_files w).
  change (w_denied (asked _ rest w)) with (w_denied w).
  rewrite Htext. unfold a at 1. rewrite planner_job_time by done.
  rewrite Hdefault. fold a. rewrite bool_decide_eq_true_2 by done.
  unfold log, asked, log_reset_exn, log_reset_events.
  cbn [w_files w_dirs w_denied w_stdin w_trace].
  rewrite <- app_assoc. reflexivity.
Qed.

End Main.

(** C5 (the claim fails): with two allocations planned and a log directory
    that cannot be removed, the first allocation raises [FileExistsError]
    out of [main]; the template has been opened once, for the first
    allocation, and never for the second. *)
Lemma later_allocations_are_not_attempted :
  let r := main (padocc_of []) (main_of (Some false) (PyStr "") None)
             (world_of {[ "/gws/abcd/errs/scan_main" ]} ["Y"]) in
  length two_bands = 2%nat
  /\ r.1 = Raise FileExistsError
  /\ length (List.filter is_deployment (w_trace r.2)) = 1%nat
  /\ w_files r.2 !! "/gws/abcd/sbatch/scan.sbatch" = None.
Proof. vm_compute. repeat split; reflexivity. Qed.

Lemma scan_known (codes : list string) : "scan" ∈ KNOWN_PHASES (padocc_of codes).
Proof. repeat constructor. Qed.

Lemma scan_parallel : "scan" <> "init".
Proof. discriminate. Qed.

Lemma main_log_reset_failure_witness :
  (main (padocc_of []) (main_of (Some false) (PyStr "") None)
     (world_of {[ "/gws/abcd/errs/scan_main" ]} ["Y"])).1
  = Raise FileExistsError.
Proof.
  erewrite (main_log_reset_failure (padocc_of [])
              (main_of (Some false) (PyStr "") None)
              "/wd" "/src" "/venv" (conf_of [])
              eq_refl eq_refl eq_refl eq_refl (scan_known _) scan_parallel).
  - vm_compute. reflexivity.
  - reflexivity.
  - reflexivity.
  - reflexivity.
  - reflexivity.
  - reflexivity.
  - apply is_denied. vm_compute. reflexivity.
Defined.

Lemma main_declined_confirmation_witness :
  (main (padocc_of []) (main_of (Some false) (PyInt 0) None)
     (world_of ∅ ["N"])).1 = Raise KeyboardInterrupt
  /\ (main (padocc_of ["a"; "b"; "c"])
        (main_of (Some false) (PyInt 0) (Some "10:00"))
        (world_of ∅ ["y"])).1 = Raise KeyboardInterrupt.
Proof.
  split.
  - edestruct (main_declined_confirmation (padocc_of [])
                 (main_of (Some false) (PyInt 0) None)
                 "/wd" "/src" "/venv" (conf_of [])
                 eq_refl eq_refl eq_refl eq_refl (scan_known _) scan_parallel
                 "N" [] (world_of ∅ ["N"]))
      as (evs & Hrun & _).
    + discriminate.
    + reflexivity.
    + left. split; [reflexivity|]. exists two_bands. reflexivity.
    + rewrite Hrun. reflexivity.
  - edestruct (main_declined_confirmation (padocc_of ["a"; "b"; "c"])
                 (main_of (Some false) (PyInt 0) (Some "10:00"))
                 "/wd" "/src" "/venv" (conf_of ["a"; "b"; "c"])
                 eq_refl eq_refl eq_refl eq_refl (scan_known _) scan_parallel
                 "y" [] (world_of ∅ ["y"]))
      as (evs & Hrun & _).
    + discriminate.
    + reflexivity.
    + right. split; [reflexivity|]. exists ["a"; "b"; "c"]. reflexivity.
    + rewrite Hrun. reflexivity.
Defined.



(** The spec's scenario on the planner path: two bands, one script path,
    written twice with the same text, submitted as [0-49] and [0-9]. *)
Example planner_scenario :
  let r := main (padocc_of []) (main_of (Some false) (PyStr "") None)
             (world_of ∅ ["Y"]) in
  r.1 = Ret tt
  /\ List.filter (fun ev => negb (quiet ev)) (w_trace r.2)
     = (let script := default "" (w_files r.2 !! "/gws/abcd/sbatch/scan.sbatch") in
        [ EvOpenRead template;
          EvIsdir "/gws/abcd/errs/scan_main/";
          EvSystem "rm -rf /gws/abcd/errs/scan_main/";
          EvMakedirs "/gws/abcd/errs/scan_main/";
          EvOpenWrite "/gws/abcd/sbatch/scan.sbatch";
          EvWrite "/gws/abcd/sbatch/scan.sbatch" script;
          EvSystem "sbatch --array=0-49 /gws/abcd/sbatch/scan.sbatch";
          EvOpenRead template;
          EvIsdir "/gws/abcd/errs/scan_main/";
          EvSystem "rm -rf /gws/abcd/errs/scan_main/";
          EvMakedirs "/gws/abcd/errs/scan_main/";
          EvOpenWrite "/gws/abcd/sbatch/scan.sbatch";
          EvWrite "/gws/abcd/sbatch/scan.sbatch" script;
          EvSystem "sbatch --array=0-9 /gws/abcd/sbatch/scan.sbatch" ]).
Proof. vm_compute. split; reflexivity. Qed.

(** From the command line [verbose] is an integer, and the same run stops
    at line 101 of the first allocation. *)
Example command_line_run_raises :
  let r := main (padocc_of []) (main_of (Some false) (PyInt 0) None)
             (world_of ∅ ["Y"]) in
  r.1 = Raise TypeError
  /\ w_files r.2 !! "/gws/abcd/sbatch/scan.sbatch" = None
  /\ List.filter (fun ev => negb (quiet ev)) (w_trace r.2)
     = [ EvOpenRead template;
         EvIsdir "/gws/abcd/errs/scan_main/";
         EvSystem "rm -rf /gws/abcd/errs/scan_main/";
         EvMakedirs "/gws/abcd/errs/scan_main/" ].
Proof. vm_compute. repeat split; reflexivity. Qed.

(** * Further properties of [deploy_array_job] *)

Import Effects.

(** X1: without the template file the function raises [FileNotFoundError]
    at line 64, having done nothing but try to open it: no directory is
    looked at, removed or made and no file is written. *)
Theorem deploy_array_job_missing_template (P : package) (a : job) (w : world) :
  w_files w !! template = None ->
  deploy_array_job P a w
  = (Raise FileNotFoundError, log [EvOpenRead template] w).
Proof. intros Htext. by rewrite deploy_array_job_cases, Htext. Qed.

Lemma deploy_array_job_missing_template_witness :
  (deploy_array_job (padocc_of [])
     (job_of 12 None (PyStr "") None None)
     (World ∅ ∅ ∅ [] [])).1
  = Raise FileNotFoundError.
Proof.
  rewrite (deploy_array_job_missing_template (padocc_of [])
             (job_of 12 None (PyStr "") None None) (World ∅ ∅ ∅ [] [])).
  - reflexivity.
  - reflexivity.
Defined.

(** X2: when neither [time] nor [time_allowed] is given and the phase has
    no entry in [times], line 69 raises [KeyError] before the log
    directory is touched: the old logs are still there. *)
Theorem deploy_array_job_no_default_time (P : package) (a : job) (w : world)
    (text : string) :
  w_files w !! template = Some text ->
  j_time a = None ->
  truthy_str (j_time_allowed a) = false ->
  times P !! j_phase a = None ->
  deploy_array_job P a w = (Raise KeyError, log [EvOpenRead template] w).
Proof.
  intros Htext Htime Hallowed Hdefault.
  rewrite deploy_array_job_cases, Htext.
  unfold resolve_time. by rewrite Htime, Hallowed, Hdefault.
Qed.

Lemma deploy_array_job_no_default_time_witness :
  let a := job_of 12 None (PyStr "") None None in
  let w := world_of ∅ [] in
  deploy_array_job (with_times (padocc_of []) ∅) a w
  = (Raise KeyError, log [EvOpenRead template] w).
Proof.
  intros a w.
  apply (deploy_array_job_no_default_time (with_times (padocc_of []) ∅) a w
           phase_template); reflexivity.
Defined.

(** X3: a given [time], or else a non-empty [time_allowed], is the time of
    the job and [times] is not consulted: the run is the same under any
    table of default times, so a phase without a default deploys too. *)
Theorem deploy_array_job_time_given (P : package) (table : gmap string string)
    (a : job) (w : world) :
  j_time a <> None \/ truthy_str (j_time_allowed a) = true ->
  resolve_time P a
  = Ret (match j_time a with
         | Some t => t
         | None => str_opt (j_time_allowed a)
         end)
  /\ deploy_array_job (with_times P table) a w = deploy_array_job P a w.
Proof.
  intros Hgiven.
  assert (Hres : forall Q, resolve_time Q a
                           = Ret (match j_time a with
                                  | Some t => t
                                  | None => str_opt (j_time_allowed a)
                                  end)).
  { intros Q. unfold resolve_time. destruct (j_time a) as [t|]; [done|].
    destruct Hgiven as [Hne|Hallowed]; [done|]. by rewrite Hallowed. }
  split; [apply Hres|].
  by rewrite !deploy_array_job_cases, !Hres.
Qed.

Lemma deploy_array_job_time_given_witness :
  let a := job_of 12 None (PyStr "") None None in
  resolve_time (padocc_of []) (relabel a "main" None) = Ret "10:00"
  /\ let a' := {| j_phase := "rechunk"; j_groupID := "abcd";
                  j_workdir := "/wd"; j_groupdir := "/gws/abcd";
                  j_source := "/src"; j_venvpath := "/venv";
                  j_group_len := 12; j_forceful := None; j_dryrun := None;
                  j_quality := None; j_verbose := PyStr "";
                  j_binpack := None; j_time_allowed := Some "30:00";
                  j_memory := None; j_subset := None;
                  j_repeat_id := "main"; j_bypass := "DBSCL";
                  j_mode := None; j_new_version := None; j_time := None;
                  j_joblabel := None |} in
     resolve_time (padocc_of []) a' = Ret "30:00"
     /\ deploy_array_job (with_times (padocc_of []) ∅) a' (world_of ∅ [])
        = deploy_array_job (padocc_of []) a' (world_of ∅ []).
Proof.
  intros a. split; [reflexivity|]. intros a'.
  apply (deploy_array_job_time_given (padocc_of []) ∅ a' (world_of ∅ [])).
  right. reflexivity.
Defined.

Lemma is_sbatch_rm (path : string) :
  is_sbatch (EvSystem ("rm -rf " +:+ path)) = false.
Proof. reflexivity. Qed.

Lemma is_sbatch_command (a : job) :
  is_sbatch (EvSystem (sbatch_command a)) = true.
Proof. reflexivity. Qed.

Lemma log_reset_not_sbatch (a : job) (w : world) :
  List.filter is_sbatch (log_reset_events a w) = [].
Proof.
  unfold log_reset_events. cbn [List.filter is_sbatch].
  rewrite List.filter_app. by case_bool_decide.
Qed.

(** X4: a job array is submitted exactly when the function returns
    normally and [dryrun] is not true.  Whatever the world, the only
    [sbatch] command among the calls of one run is the one of line 126,
    once; a run that raises, or a dry run, has none. *)
Theorem deploy_array_job_submits_once (P : package) (a : job) (w : world) :
  exists evs,
    w_trace (deploy_array_job P a w).2 = w_trace w ++ evs
    /\ List.filter is_sbatch evs
       = match (deploy_array_job P a w).1 with
         | Ret _ =>
             if truthy_bool (j_dryrun a) then []
             else [EvSystem (sbatch_command a)]
         | Raise _ => []
         end.
Proof.
  rewrite deploy_array_job_cases.
  destruct (w_files w !! template) as [text|]; [|by exists [EvOpenRead template]].
  destruct (resolve_time P a) as [time|e]; [|by exists [EvOpenRead template]].
  case_bool_decide.
  { exists ([EvOpenRead template] ++ log_reset_events a w). split; [done|].
    rewrite List.filter_app. by rewrite log_reset_not_sbatch. }
  destruct (format _ _) as [sb|e].
  2:{ exists ([EvOpenRead template] ++ log_reset_events a w). split; [done|].
      rewrite List.filter_app. by rewrite log_reset_not_sbatch. }
  destruct (len _) as [n|e].
  2:{ exists ([EvOpenRead template] ++ log_reset_events a w). split; [done|].
      rewrite List.filter_app. by rewrite log_reset_not_sbatch. }
  case_bool_decide.
  - exists (([EvOpenRead template] ++ log_reset_events a w)
            ++ [EvOpenWrite (group_phase_sbatch a)]).
    split.
    + unfold log, after_log_reset. cbn [w_trace snd].
      by rewrite <- !app_assoc.
    + rewrite !List.filter_app. by rewrite log_reset_not_sbatch.
  - eexists. split; [reflexivity|].
    rewrite !List.filter_app, log_reset_not_sbatch. unfold submit_events.
    by destruct (truthy_bool (j_dryrun a)).
Qed.

Lemma log_reset_not_sbatch_print (a : job) (w : world) :
  List.filter is_sbatch_print (log_reset_events a w) = [].
Proof.
  unfold log_reset_events. cbn [List.filter is_sbatch_print].
  rewrite List.filter_app. by case_bool_decide.
Qed.

(** With an integer [verbose], in any world, dry or not: the run raises,
    and no line that begins with [sbatch] is printed or run. *)
Lemma deploy_array_job_int_verbose_reports_nothing (P : package) (a : job)
    (w : world) (v : Z) :
  j_verbose a = PyInt v ->
  exists e evs,
    (deploy_array_job P a w).1 = Raise e
    /\ w_trace (deploy_array_job P a w).2 = w_trace w ++ evs
    /\ List.filter is_sbatch evs = []
    /\ List.filter is_sbatch_print evs = [].
Proof.
  intros Hv. rewrite deploy_array_job_cases, Hv.
  destruct (w_files w !! template) as [text|].
  2:{ by exists FileNotFoundError, [EvOpenRead template]. }
  destruct (resolve_time P a) as [time|e].
  2:{ by exists e, [EvOpenRead template]. }
  assert (Hreset :
    List.filter is_sbatch ([EvOpenRead template] ++ log_reset_events a w) = []
    /\ List.filter is_sbatch_print
         ([EvOpenRead template] ++ log_reset_events a w) = []).
  { rewrite !List.filter_app, log_reset_not_sbatch,
      log_reset_not_sbatch_print. by split. }
  destruct Hreset as [Hsys Hprint].
  case_bool_decide.
  { by exists (log_reset_exn a w),
              ([EvOpenRead template] ++ log_reset_events a w). }
  destruct (format _ _) as [sb|e].
  - by exists TypeError, ([EvOpenRead template] ++ log_reset_events a w).
  - by exists e, ([EvOpenRead template] ++ log_reset_events a w).
Qed.






(** ** Labels, paths and names *)

Lemma length_append (s1 s2 : string) :
  String.length (s1 +:+ s2) = (String.length s1 + String.length s2)%nat.
Proof.
  induction s1 as [|c s1 IH]; [reflexivity|].
  change (S (String.length (s1 +:+ s2))
          = S (String.length s1 + String.length s2)).
  by rewrite IH.
Qed.

Lemma append_cancel_l (s t1 t2 : string) :
  s +:+ t1 = s +:+ t2 -> t1 = t2.
Proof.
  induction s as [|c s IH]; [done|].
  intros H. apply IH.
  change (String c (s +:+ t1) = String c (s +:+ t2)) in H. congruence.
Qed.

Lemma append_cancel_r (s1 s2 t : string) :
  s1 +:+ t = s2 +:+ t -> s1 = s2.
Proof.
  revert s2. induction s1 as [|c s1 IH]; intros [|d s2] H.
  - reflexivity.
  - change ("" +:+ t) with t in H.
    apply (f_equal String.length) in H.
    rewrite (length_append (String d s2) t) in H. simpl in H. lia.
  - change ("" +:+ t) with t in H.
    apply (f_equal String.length) in H.
    rewrite (length_append (String c s1) t) in H. simpl in H. lia.
  - change (String c (s1 +:+ t) = String d (s2 +:+ t)) in H.
    injection H as -> H. f_equal. by apply IH.
Qed.

(** X7: jobs that differ in a non-empty label have different script
    paths and different job names, whatever their repeat ids, and a
    labelled job never has the script path of the unlabelled one: labelled
    deployments of one phase do not write over each other. *)
Theorem labelled_jobs_are_apart (a : job) (r1 r2 l1 l2 : string) :
  l1 <> "" -> l2 <> "" -> l1 <> l2 ->
  group_phase_sbatch (relabel a r1 (Some l1))
  <> group_phase_sbatch (relabel a r2 (Some l2))
  /\ jobname (relabel a r1 (Some l1)) <> jobname (relabel a r2 (Some l2))
  /\ group_phase_sbatch (relabel a r1 (Some l1))
     <> group_phase_sbatch (relabel a r2 None).
Proof.
  intros H1 H2 Hne.
  apply String.eqb_neq in H1, H2.
  unfold group_phase_sbatch, jobname, truthy_str; simpl.
  rewrite H1, H2; simpl.
  split; [|split].
  - intros H. do 4 apply append_cancel_l in H.
    by apply append_cancel_r in H.
  - intros H. by apply append_cancel_r in H.
  - intros H. do 3 apply append_cancel_l in H. discriminate.
Qed.

Lemma labelled_jobs_are_apart_witness :
  let a := job_of 12 None (PyStr "") None None in
  group_phase_sbatch (relabel a "main" (Some "band1"))
  <> group_phase_sbatch (relabel a "main" (Some "band2")).
Proof.
  intros a.
  apply (labelled_jobs_are_apart a "main" "main" "band1" "band2");
    discriminate.
Defined.

(** X8: the log directory does not tell a label from an underscore in the
    repeat id.  A job with repeat id [r] and label [l] and an unlabelled
    job with repeat id [r_l] hand different repeat ids on, yet reset the
    same log directory. *)
Theorem label_shares_log_directory (a : job) (r l : string) :
  l <> "" ->
  errdir (relabel a r (Some l)) = errdir (relabel a (r +:+ "_" +:+ l) None)
  /\ repeat_id (relabel a r (Some l)) <> repeat_id (relabel a (r +:+ "_" +:+ l) None).
Proof.
  intros Hl. apply String.eqb_neq in Hl.
  unfold errdir, repeat_id, truthy_str; simpl. rewrite Hl; simpl.
  split.
  - by rewrite !replace_char_app.
  - intros H. apply append_cancel_l in H. discriminate.
Qed.

Lemma label_shares_log_directory_witness :
  let a := job_of 12 None (PyStr "") None None in
  errdir (relabel a "main" (Some "band1"))
  = errdir (relabel a "main_band1" None).
Proof.
  intros a.
  apply (label_shares_log_directory a "main" "band1"). discriminate.
Defined.

(** * Further properties of [main] *)

Section MainEntry.

Variables (P : package) (m : main_args).
Variables (workdir source venvpath : string) (conf : config).

Hypothesis Hworkdir : get_attribute P "WORKDIR" (m_workdir m) = Ret workdir.
Hypothesis Hsource : get_attribute P "SRCDIR" (m_source m) = Ret source.
Hypothesis Hvenvpath : get_attribute P "KVENV" (m_venvpath m) = Ret venvpath.
Hypothesis Hconf : Configuration P (m_groupID m) workdir = Ret conf.

Ltac run_to_phase_check :=
  unfold main, call_get_attribute;
  do 3 (erewrite bind_ret_run;
        [|erewrite bind_ret_run by apply emit_run; rewrite lift_run;
          first [rewrite Hworkdir|rewrite Hsource|rewrite Hvenvpath];
          reflexivity]);
  erewrite bind_ret_run by apply emit_run;
  (erewrite bind_ret_run; [|by rewrite lift_run, Hconf]).

(** X9: for a phase that is not among [KNOWN_PHASES], [main] logs the
    error and returns normally.  By then the three attributes have been
    resolved and the [Configuration] has been built; nothing is asked of
    the planner or of the user and nothing is deployed. *)
Theorem main_unknown_phase (w : world) :
  m_phase m ∉ KNOWN_PHASES P ->
  main P m w
  = (Ret tt,
     log [ EvGetAttribute "WORKDIR"; EvGetAttribute "SRCDIR";
           EvGetAttribute "KVENV"; EvConfiguration (m_groupID m);
           EvLogError (dquote +:+ m_phase m +:+ dquote
                       +:+ " not recognised, please select from "
                       +:+ KNOWN_PHASES_str P) ] w).
Proof.
  intros Hunknown. run_to_phase_check.
  rewrite bool_decide_eq_false_2 by done. cbn [negb].
  unfold log_error. rewrite emit_run, !log_log. reflexivity.
Qed.

(** X10: the phase [init] is run in the process itself: [main] calls
    [conf.init_config(input_file)] and ends as that call ends.  Whether or
    not a time is given, the planner is not called, nothing is read from
    standard input and no script is written. *)
Theorem main_init_phase (w : world) :
  m_phase m = "init" ->
  "init" ∈ KNOWN_PHASES P ->
  main P m w
  = (conf_init_config conf (m_input_file m),
     log (preamble_events m source venvpath
          ++ [ EvLogInfo ("Running init steps as a serial process for "
                          +:+ m_groupID m);
               EvInitConfig (m_input_file m) ]) w).
Proof.
  intros Hinit Hknown. run_to_phase_check.
  rewrite Hinit. rewrite bool_decide_eq_true_2 by done. cbn [negb].
  erewrite bind_ret_run by apply emit_run.
  change ("init" =? "init")%string with true. cbv iota.
  unfold log_info.
  erewrite bind_ret_run by apply emit_run.
  erewrite bind_ret_run by apply emit_run.
  rewrite lift_run, !log_log. reflexivity.
Qed.

Hypothesis Hknown : m_phase m ∈ KNOWN_PHASES P.
Hypothesis Hparallel : m_phase m <> "init".

Ltac run_to_branch :=
  run_to_phase_check;
  rewrite bool_decide_eq_true_2 by done; cbn [negb];
  erewrite bind_ret_run by apply emit_run;
  let H := fresh in
  pose proof Hparallel as H; apply String.eqb_neq in H; rewrite H; clear H.

(** X11: on the time-override path, a repeat id without project codes
    raises [KeyError] at line 224, before the confirmation is asked:
    standard input is left unread and nothing is deployed. *)
Theorem main_override_unknown_repeat (w : world) :
  truthy_str (m_time_allowed m) = true ->
  conf_proj_codes conf !! m_repeat_id m = None ->
  main P m w
  = (Raise KeyError,
     log (preamble_events m source venvpath
          ++ [EvProjCodes (m_repeat_id m)]) w).
Proof.
  intros Htime Hcodes. run_to_branch.
  rewrite Htime. cbn [negb].
  erewrite bind_ret_run by apply emit_run.
  erewrite bind_raise_run; [|by rewrite lift_run, Hcodes].
  by rewrite !log_log.
Qed.

(** X12: the planner's failure is [main]'s: when [create_allocations]
    raises, [main] raises the same before anything is printed or asked. *)
Theorem main_planner_failure (e : exn) (w : world) :
  truthy_str (m_time_allowed m) = false ->
  conf_create_allocations conf (m_phase m) (m_repeat_id m)
    (m_band_increase m) (m_binpack m) = Raise e ->
  main P m w
  = (Raise e,
     log (preamble_events m source venvpath
          ++ [EvCreateAllocations (m_phase m) (m_repeat_id m)]) w).
Proof.
  intros Htime Hplan. run_to_branch.
  rewrite Htime. cbn [negb].
  erewrite bind_ret_run by apply emit_run.
  erewrite bind_raise_run; [|by rewrite lift_run, Hplan].
  by rewrite !log_log.
Qed.

(** X13: with standard input at its end the confirmation raises
    [EOFError], on both paths, after the summary has been printed or
    logged: nothing is deployed. *)
Theorem main_end_of_input (w : world) :
  w_stdin w = [] ->
  (truthy_str (m_time_allowed m) = false ->
   forall allocations,
     conf_create_allocations conf (m_phase m) (m_repeat_id m)
       (m_band_increase m) (m_binpack m) = Ret allocations ->
     main P m w
     = (Raise EOFError,
        log (planner_events m source venvpath allocations) w))
  /\ (truthy_str (m_time_allowed m) = true ->
      forall codes,
        conf_proj_codes conf !! m_repeat_id m = Some codes ->
        main P m w
        = (Raise EOFError,
           log (override_events m source venvpath codes) w)).
Proof.
  intros Hin. split.
  - intros Htime allocations Hplan. run_to_branch.
    rewrite Htime. cbn [negb].
    erewrite bind_ret_run by apply emit_run.
    erewrite bind_ret_run; [|by rewrite lift_run, Hplan].
    erewrite bind_ret_run by apply for_each_print.
    rewrite !log_log.
    erewrite bind_raise_run; [|by rewrite input_run; simpl; rewrite Hin].
    rewrite log_log. reflexivity.
  - intros Htime codes Hcodes. run_to_branch.
    rewrite Htime. cbn [negb].
    erewrite bind_ret_run by apply emit_run.
    erewrite bind_ret_run; [|by rewrite lift_run, Hcodes].
    unfold log_info.
    erewrite bind_ret_run by apply emit_run.
    rewrite !log_log.
    erewrite bind_raise_run; [|by rewrite input_run; simpl; rewrite Hin].
    rewrite log_log. reflexivity.
Qed.

End MainEntry.

Section MainLoop.

Variables (P : package) (m : main_args).
Variables (workdir source venvpath : string) (conf : config).

Hypothesis Hworkdir : get_attribute P "WORKDIR" (m_workdir m) = Ret workdir.
Hypothesis Hsource : get_attribute P "SRCDIR" (m_source m) = Ret source.
Hypothesis Hvenvpath : get_attribute P "KVENV" (m_venvpath m) = Ret venvpath.
Hypothesis Hconf : Configuration P (m_groupID m) workdir = Ret conf.
Hypothesis Hknown : m_phase m ∈ KNOWN_PHASES P.
Hypothesis Hparallel : m_phase m <> "init".
Hypothesis Hplanner : truthy_str (m_time_allowed m) = false.

(** X14: when the planner returns no allocation and the user confirms,
    [main] returns normally having deployed nothing: the template is not
    opened, no directory is touched, no script is written and no command
    is run.  The confirmation is asked all the same. *)
Theorem main_no_allocations (rest : list string) (w : world) :
  conf_create_allocations conf (m_phase m) (m_repeat_id m)
    (m_band_increase m) (m_binpack m) = Ret [] ->
  w_stdin w = "Y" :: rest ->
  main P m w
  = (Ret tt,
     World (w_files w) (w_dirs w) (w_denied w) rest
       (w_trace w ++ preamble_events m source venvpath
          ++ [EvCreateAllocations (m_phase m) (m_repeat_id m);
              EvInput prompt])).
Proof.
  intros Hplan Hin.
  rewrite (main_planner_run P m workdir source venvpath conf
             Hworkdir Hsource Hvenvpath Hconf Hknown Hparallel
             [] "Y" rest w Hplanner Hplan Hin).
  reflexivity.
Qed.

Variables (text time sb : string) (n : nat).

Hypothesis Hdefault : times P !! m_phase m = Some time.
Hypothesis Hformat :
  format (read_template text)
    (slots (array_job m workdir (conf_dir conf) source venvpath 0) time)
  = Ret sb.
Hypothesis Hverbose : len (m_verbose m) = Ret n.
Hypothesis Hscript :
  group_phase_sbatch (array_job m workdir (conf_dir conf) source venvpath 0)
  <> template.

Lemma planner_loop_run (allocations : list allocation) (w : world) :
  let job k := array_job m workdir (conf_dir conf) source venvpath k in
  w_files w !! template = Some text ->
  normpath (errdir (job 0)) ∉ w_denied w ->
  group_phase_sbatch (job 0) ∉ w_denied w ->
  exists w' evs,
    for_each allocations (fun alloc => deploy_array_job P (job alloc.2)) w
    = (Ret tt, w')
    /\ w_trace w' = w_trace w ++ evs
    /\ List.filter is_sbatch evs
       = (if truthy_bool (m_dryrun m) then []
          else map (fun alloc => EvSystem (sbatch_command (job alloc.2)))
                 allocations)
    /\ List.filter is_sbatch_print evs
       = (if truthy_bool (m_dryrun m)
          then map (fun alloc => EvPrint (sbatch_command (job alloc.2)))
                 allocations
          else [])
    /\ length (List.filter is_deployment evs) = length allocations
    /\ (allocations <> [] \/
        w_files w !! group_phase_sbatch (job 0)
        = Some (carry_through (job 0) sb n) ->
        w_files w' !! group_phase_sbatch (job 0)
        = Some (carry_through (job 0) sb n)).
Proof.
  intros job. revert w.
  induction allocations as [|alloc allocations IH]; intros w Htext Hden Hpath.
  { exists w, []. split; [reflexivity|]. split; [by rewrite app_nil_r|].
    repeat split; try by destruct (truthy_bool (m_dryrun m)).
    by intros [?|?]. }
  set (a := job alloc.2).
  assert (Hrun : deploy_array_job P a w
                 = (Ret tt, deployed a (carry_through a sb n) w)).
  { rewrite deploy_array_job_cases, Htext.
    unfold a, job at 1. rewrite planner_job_time by done.
    rewrite Hdefault.
    change (errdir (job alloc.2)) with (errdir (job 0)).
    change (group_phase_sbatch (job alloc.2)) with (group_phase_sbatch (job 0)).
    rewrite !bool_decide_eq_false_2 by done.
    change (slots (job alloc.2) time) with (slots (job 0) time).
    unfold job at 1. rewrite Hformat.
    change (j_verbose (job alloc.2)) with (m_verbose m). by rewrite Hverbose. }
  destruct (IH (deployed a (carry_through a sb n) w))
    as (w' & evs & Hloop & Htr & Hsys & Hprint & Hcount & Hfile).
  { unfold deployed; simpl. by rewrite !lookup_insert_ne. }
  { exact Hden. }
  { exact Hpath. }
  exists w'.
  exists (([EvOpenRead template] ++ log_reset_events a w
           ++ [EvOpenWrite (group_phase_sbatch a);
               EvWrite (group_phase_sbatch a) (carry_through a sb n)]
           ++ submit_events a) ++ evs).
  split; [|split; [|split; [|split; [|split]]]].
  - rewrite (for_each_cons
               (fun alloc0 : allocation => deploy_array_job P (job alloc0.2))
               alloc allocations w _ Hrun).
    exact Hloop.
  - rewrite Htr. unfold deployed. cbn [w_trace].
    rewrite <- app_assoc. reflexivity.
  - rewrite !List.filter_app, Hsys, log_reset_not_sbatch.
    unfold submit_events. change (j_dryrun a) with (m_dryrun m).
    by destruct (truthy_bool (m_dryrun m)).
  - rewrite !List.filter_app, Hprint.
    assert (Hreset : List.filter is_sbatch_print (log_reset_events a w) = []).
    { unfold log_reset_events. cbn [List.filter is_sbatch_print].
      rewrite List.filter_app. by case_bool_decide. }
    rewrite Hreset. unfold submit_events.
    change (j_dryrun a) with (m_dryrun m).
    by destruct (truthy_bool (m_dryrun m)).
  - rewrite !List.filter_app, !length_app, Hcount.
    assert (Hreset : List.filter is_deployment (log_reset_events a w) = []).
    { unfold log_reset_events. cbn [List.filter is_deployment].
      rewrite List.filter_app. by case_bool_decide. }
    rewrite Hreset. unfold submit_events.
    by destruct (truthy_bool (j_dryrun a)).
  - intros _. apply Hfile. right.
    unfold deployed; simpl. apply lookup_insert_eq.
Qed.

(** X15: when every deployment goes through, [main] submits the
    allocations in the planner's order.  After the confirmation the
    template is opened once per allocation; without dry-run the [sbatch]
    commands run are those of the allocations, in order, each with the
    range [0-{count-1}] and the one script path; under dry-run none is
    run and the same commands are printed instead; and the script left on
    disk is the carried-through text. *)
Theorem main_submits_in_planner_order (allocations : list allocation)
    (rest : list string) (w : world) :
  conf_create_allocations conf (m_phase m) (m_repeat_id m)
    (m_band_increase m) (m_binpack m) = Ret allocations ->
  w_stdin w = "Y" :: rest ->
  w_files w !! template = Some text ->
  let job k := array_job m workdir (conf_dir conf) source venvpath k in
  let command (alloc : allocation) :=
    "sbatch --array=0-" +:+ str_int (alloc.2 - 1) +:+ " "
    +:+ group_phase_sbatch (job 0) in
  normpath (errdir (job 0)) ∉ w_denied w ->
  group_phase_sbatch (job 0) ∉ w_denied w ->
  exists w' evs,
    main P m w = (Ret tt, w')
    /\ w_trace w'
       = w_trace w ++ planner_events m source venvpath allocations ++ evs
    /\ List.filter is_sbatch evs
       = (if truthy_bool (m_dryrun m) then []
          else map (fun alloc => EvSystem (command alloc)) allocations)
    /\ List.filter is_sbatch_print evs
       = (if truthy_bool (m_dryrun m)
          then map (fun alloc => EvPrint (command alloc)) allocations
          else [])
    /\ length (List.filter is_deployment evs) = length allocations
    /\ (allocations <> [] ->
        w_files w' !! group_phase_sbatch (job 0)
        = Some (carry_through (job 0) sb n)).
Proof.
  intros Hplan Hin Htext job command Hden Hpath.
  destruct (planner_loop_run allocations
              (asked (planner_events m source venvpath allocations) rest w)
              Htext Hden Hpath)
    as (w' & evs & Hloop & Htr & Hsys & Hprint & Hcount & Hfile).
  exists w', evs.
  split; [|split; [|split; [|split; [|split]]]].
  - rewrite (main_planner_run P m workdir source venvpath conf
               Hworkdir Hsource Hvenvpath Hconf Hknown Hparallel
               allocations "Y" rest w Hplanner Hplan Hin).
    exact Hloop.
  - rewrite Htr. unfold asked; simpl. by rewrite <- app_assoc.
  - exact Hsys.
  - exact Hprint.
  - exact Hcount.
  - intros Hne. apply Hfile. by left.
Qed.

End MainLoop.

Import Cases.

Lemma main_unknown_phase_witness :
  (main (padocc_of []) (retarget (main_of None (PyInt 0) None) "rechunk" "main")
     (world_of ∅ ["Y"])).1 = Ret tt.
Proof.
  erewrite (main_unknown_phase (padocc_of [])
              (retarget (main_of None (PyInt 0) None) "rechunk" "main")
              "/wd" "/src" "/venv" (conf_of [])
              eq_refl eq_refl eq_refl eq_refl).
  - reflexivity.
  - apply (bool_decide_eq_false_1 _). vm_compute. reflexivity.
Defined.

Lemma main_init_phase_witness :
  (main (padocc_of [])
     (retarget (main_of None (PyInt 0) (Some "10:00")) "init" "main")
     (world_of ∅ ["Y"])).1 = Ret tt.
Proof.
  erewrite (main_init_phase (padocc_of [])
              (retarget (main_of None (PyInt 0) (Some "10:00")) "init" "main")
              "/wd" "/src" "/venv" (conf_of [])
              eq_refl eq_refl eq_refl eq_refl).
  - reflexivity.
  - reflexivity.
  - repeat constructor.
Defined.

Lemma main_override_unknown_repeat_witness :
  (main (padocc_of [])
     (retarget (main_of None (PyInt 0) (Some "10:00")) "scan" "scan_1")
     (world_of ∅ ["Y"])).1 = Raise KeyError.
Proof.
  erewrite (main_override_unknown_repeat (padocc_of [])
              (retarget (main_of None (PyInt 0) (Some "10:00")) "scan" "scan_1")
              "/wd" "/src" "/venv" (conf_of [])
              eq_refl eq_refl eq_refl eq_refl (scan_known _) scan_parallel).
  - reflexivity.
  - reflexivity.
  - reflexivity.
Defined.

Lemma main_planner_failure_witness :
  (main (padocc_planning (Raise External)) (main_of None (PyInt 0) None)
     (world_of ∅ ["Y"])).1 = Raise External.
Proof.
  erewrite (main_planner_failure (padocc_planning (Raise External))
              (main_of None (PyInt 0) None)
              "/wd" "/src" "/venv" (conf_planning (Raise External))
              eq_refl eq_refl eq_refl eq_refl (scan_known _) scan_parallel).
  - reflexivity.
  - reflexivity.
  - reflexivity.
Defined.

Lemma main_end_of_input_witness :
  (main (padocc_of []) (main_of None (PyInt 0) None) (world_of ∅ [])).1
  = Raise EOFError
  /\ (main (padocc_of []) (main_of None (PyInt 0) (Some "10:00"))
        (world_of ∅ [])).1 = Raise EOFError.
Proof.
  split.
  - edestruct (main_end_of_input (padocc_of []) (main_of None (PyInt 0) None)
                 "/wd" "/src" "/venv" (conf_of [])
                 eq_refl eq_refl eq_refl eq_refl (scan_known _) scan_parallel
                 (world_of ∅ []) eq_refl) as [Hplan _].
    by rewrite (Hplan eq_refl two_bands eq_refl).
  - edestruct (main_end_of_input (padocc_of [])
                 (main_of None (PyInt 0) (Some "10:00"))
                 "/wd" "/src" "/venv" (conf_of [])
                 eq_refl eq_refl eq_refl eq_refl (scan_known _) scan_parallel
                 (world_of ∅ []) eq_refl) as [_ Hover].
    by rewrite (Hover eq_refl [] eq_refl).
Defined.

Lemma main_no_allocations_witness :
  (main (padocc_planning (Ret [])) (main_of None (PyInt 0) None)
     (world_of ∅ ["Y"])).1 = Ret tt.
Proof.
  erewrite (main_no_allocations (padocc_planning (Ret []))
              (main_of None (PyInt 0) None)
              "/wd" "/src" "/venv" (conf_planning (Ret []))
              eq_refl eq_refl eq_refl eq_refl (scan_known _) scan_parallel
              eq_refl).
  - reflexivity.
  - reflexivity.
  - reflexivity.
Defined.

Lemma scan_script_eval (dryrun : option bool) :
  format (read_template phase_template)
    (slots (array_job (main_of dryrun (PyStr "") None) "/wd"
              (conf_dir (conf_of [])) "/src" "/venv" 0) "10:00")
  = Ret scan_script.
Proof. vm_compute. reflexivity. Qed.

Lemma scan_script_path (dryrun : option bool) :
  group_phase_sbatch (array_job (main_of dryrun (PyStr "") None) "/wd"
                        (conf_dir (conf_of [])) "/src" "/venv" 0)
  <> template.
Proof. discriminate. Qed.

Lemma main_submits_in_planner_order_witness :
  exists w' evs,
    main (padocc_of []) (main_of (Some false) (PyStr "") None)
      (world_of ∅ ["Y"]) = (Ret tt, w')
    /\ w_trace w'
       = [] ++ planner_events (main_of (Some false) (PyStr "") None)
                 "/src" "/venv" two_bands ++ evs
    /\ List.filter is_sbatch evs
       = [ EvSystem "sbatch --array=0-49 /gws/abcd/sbatch/scan.sbatch";
           EvSystem "sbatch --array=0-9 /gws/abcd/sbatch/scan.sbatch" ].
Proof.
  pose proof (main_submits_in_planner_order (padocc_of [])
                (main_of (Some false) (PyStr "") None)
                "/wd" "/src" "/venv" (conf_of [])
                eq_refl eq_refl eq_refl eq_refl (scan_known _) scan_parallel
                eq_refl phase_template "10:00" scan_script 0%nat eq_refl
                (scan_script_eval _) eq_refl (scan_script_path _)
                two_bands [] (world_of ∅ ["Y"])) as H.
  specialize (H eq_refl eq_refl eq_refl). cbv zeta in H.
  destruct H as (w' & evs & Hrun & Htr & Hsys & _).
  { apply not_denied. vm_compute. reflexivity. }
  { apply not_denied. vm_compute. reflexivity. }
  exists w', evs. split; [exact Hrun|]. split; [exact Htr|]. exact Hsys.
Defined.

(** * [single_run.py] *)

Section SingleRunFacts.

Variable K : Type.
Variables (P : SingleRun.package K) (env : gmap string string).
Variables (phase proj_code : string) (workdir groupID : option string).
Variables (verbose : Z) (repeat_id bypass mode : string) (kwargs : K).

(** X16: [main] of [single_run.py] reaches [conf.run_group] exactly when
    a group id is given and the bypass switch, the configuration and the
    writability check have all gone through; it then has made these four
    calls in this order, handing the project code, mode, repeat id, phase
    and keyword arguments on as it got them, and it ends as [run_group]
    ends.  Without a group id it raises [NotImplementedError] before any
    call. *)
Theorem single_run_reaches_run_group :
  let r := SingleRun.main P env phase proj_code workdir groupID verbose
             repeat_id bypass mode kwargs in
  ((exists pc md rp ph kw, In (SingleRun.CallRunGroup pc md rp ph kw) r.2)
   <-> exists group conf,
         groupID = Some group
         /\ SingleRun.BypassSwitch P bypass = SingleRun.Done tt
         /\ SingleRun.Configuration P workdir group (SingleRun.logid env) verbose
            = SingleRun.Done conf
         /\ SingleRun.check_writable conf = SingleRun.Done tt)
  /\ (forall group conf,
        groupID = Some group ->
        SingleRun.BypassSwitch P bypass = SingleRun.Done tt ->
        SingleRun.Configuration P workdir group (SingleRun.logid env) verbose
        = SingleRun.Done conf ->
        SingleRun.check_writable conf = SingleRun.Done tt ->
        r = (SingleRun.run_group conf proj_code mode repeat_id phase kwargs,
             [ SingleRun.CallBypassSwitch bypass;
               SingleRun.CallConfiguration workdir group (SingleRun.logid env)
                 verbose;
               SingleRun.CallCheckWritable;
               SingleRun.CallRunGroup proj_code mode repeat_id phase kwargs ]))
  /\ (groupID = None -> r = (SingleRun.Raised SingleRun.NotImplementedError, [])).
Proof.
  cbv zeta. unfold SingleRun.main.
  split; [|split].
  - split.
    + intros (pc & md & rp & ph & kw & Hin).
      destruct groupID as [group|]; [|by destruct Hin].
      destruct (SingleRun.BypassSwitch P bypass) as [[]|e] eqn:Hb.
      2:{ simpl in Hin. by destruct Hin as [?|[]]. }
      destruct (SingleRun.Configuration P workdir group (SingleRun.logid env)
                  verbose) as [conf|e] eqn:Hc.
      2:{ simpl in Hin. by destruct Hin as [?|[?|[]]]. }
      destruct (SingleRun.check_writable conf) as [[]|e] eqn:Hw.
      2:{ simpl in Hin. by destruct Hin as [?|[?|[?|[]]]]. }
      by exists group, conf.
    + intros (group & conf & -> & Hb & Hc & Hw).
      rewrite Hb, Hc, Hw.
      exists proj_code, mode, repeat_id, phase, kwargs.
      simpl. auto.
  - intros group conf -> Hb Hc Hw. by rewrite Hb, Hc, Hw.
  - by intros ->.
Qed.

(** X17: the log id handed to [Configuration] comes from the two
    scheduler variables: empty when [SLURM_ARRAY_JOB_ID] is unset or
    empty, whatever the task id; [{job}-{task}] when both are set; and
    [{job}-None] when the job id is set and [SLURM_ARRAY_TASK_ID] is
    not. *)
Theorem single_run_logid (group : string) :
  groupID = Some group ->
  SingleRun.BypassSwitch P bypass = SingleRun.Done tt ->
  let r := SingleRun.main P env phase proj_code workdir groupID verbose
             repeat_id bypass mode kwargs in
  exists logid,
    r.2 !! 1%nat = Some (SingleRun.CallConfiguration workdir group logid verbose)
    /\ (env !! "SLURM_ARRAY_JOB_ID" = None -> logid = "")
    /\ (env !! "SLURM_ARRAY_JOB_ID" = Some "" -> logid = "")
    /\ (forall job task,
          env !! "SLURM_ARRAY_JOB_ID" = Some job -> job <> "" ->
          env !! "SLURM_ARRAY_TASK_ID" = Some task ->
          logid = job +:+ "-" +:+ task)
    /\ (forall job,
          env !! "SLURM_ARRAY_JOB_ID" = Some job -> job <> "" ->
          env !! "SLURM_ARRAY_TASK_ID" = None ->
          logid = job +:+ "-None").
Proof.
  intros -> Hb. cbv zeta. exists (SingleRun.logid env). split.
  - unfold SingleRun.main. rewrite Hb.
    destruct (SingleRun.Configuration P workdir group (SingleRun.logid env)
                verbose) as [conf|e]; [|reflexivity].
    by destruct (SingleRun.check_writable conf).
  - unfold SingleRun.logid, SingleRun.getenv, truthy_str.
    split; [|split; [|split]].
    + by intros ->.
    + by intros ->.
    + intros job task -> Hne ->. apply String.eqb_neq in Hne.
      by rewrite Hne.
    + intros job -> Hne ->. apply String.eqb_neq in Hne.
      by rewrite Hne.
Qed.

(** X18: the bypass code stops at line 51.  Once [BypassSwitch] has
    accepted it, nothing that follows depends on it: for two accepted
    codes [main] ends the same way and makes the same calls to
    [Configuration], [check_writable] and [run_group]. *)
Theorem single_run_drops_bypass (bypass' : string) :
  SingleRun.BypassSwitch P bypass = SingleRun.Done tt ->
  SingleRun.BypassSwitch P bypass' = SingleRun.Done tt ->
  let r := SingleRun.main P env phase proj_code workdir groupID verbose
             repeat_id bypass mode kwargs in
  let r' := SingleRun.main P env phase proj_code workdir groupID verbose
              repeat_id bypass' mode kwargs in
  r.1 = r'.1
  /\ List.filter SingleRun.past_bypass r.2
     = List.filter SingleRun.past_bypass r'.2.
Proof.
  intros Hb Hb'. cbv zeta. unfold SingleRun.main.
  destruct groupID as [group|]; [|done].
  rewrite Hb, Hb'.
  destruct (SingleRun.Configuration P workdir group (SingleRun.logid env)
              verbose) as [conf|e]; [|done].
  by destruct (SingleRun.check_writable conf).
Qed.

End SingleRunFacts.

Lemma single_run_logid_witness :
  exists logid,
    (SingleRun.main SingleRun.obliging {[ "SLURM_ARRAY_JOB_ID" := "4711" ]}
       "scan" "proj_a" (Some "/wd") (Some "abcd") 0 "main" "DBSCLR"
       "kerchunk" SingleRun.no_flags).2 !! 1%nat
    = Some (SingleRun.CallConfiguration (Some "/wd") "abcd" logid 0)
    /\ logid = "4711-None".
Proof.
  edestruct (single_run_logid SingleRun.cli_kwargs SingleRun.obliging
               {[ "SLURM_ARRAY_JOB_ID" := "4711" ]}
               "scan" "proj_a" (Some "/wd") (Some "abcd") 0 "main" "DBSCLR"
               "kerchunk" SingleRun.no_flags "abcd" eq_refl eq_refl)
    as (logid & Hcall & _ & _ & _ & Hnone).
  exists logid. split; [exact Hcall|].
  apply (Hnone "4711"); [reflexivity|discriminate|reflexivity].
Defined.

Lemma single_run_drops_bypass_witness :
  (SingleRun.main SingleRun.obliging ∅ "scan" "proj_a" (Some "/wd")
     (Some "abcd") 0 "main" "DBSCLR" "kerchunk" SingleRun.no_flags).1
  = (SingleRun.main SingleRun.obliging ∅ "scan" "proj_a" (Some "/wd")
       (Some "abcd") 0 "main" "" "kerchunk" SingleRun.no_flags).1.
Proof.
  apply (single_run_drops_bypass SingleRun.cli_kwargs SingleRun.obliging ∅
           "scan" "proj_a" (Some "/wd") (Some "abcd") 0 "main" "DBSCLR"
           "kerchunk" SingleRun.no_flags "" eq_refl eq_refl).
Defined.
